(** * The AI agent bubble: a shallow embedding of [ai-agent.ts]

    The development follows
    [packages/bubble-core/src/bubbles/service-bubble/ai-agent.ts]:
    the fallback configuration ([buildModelConfig]), the retry backoff
    ([exponentialBackoff]), the tool node ([executeToolsWithHooks]), the
    two-node graph built by [createAgentGraph], the accounting done by
    [executeAgent] and the outer [performAction].  Around the engine it
    also follows the choice of a credential ([getCredentialTypeForModel],
    [chooseCredential], the key lookup of [initializeModel]), the test
    parameters of the credential validator ([createTestParameters]) and
    the retry loop of Pearl ([runPearl]), where one run of the agent with
    its hooks is an oracle.

    JavaScript values that travel through tool calls are JSON values;
    numbers that are delays are rationals.  Everything the engine does not
    compute itself (the chat model, the tools, the hooks, the network, the
    tool factory, the random source) is a field of a [World] record, so
    every statement is quantified over all behaviours of those
    collaborators.

    What the model covers and what it leaves out:
    - the chat model, the tools, the hooks and [fetch] are functions of
      their arguments that return or throw; the chat model also sees the
      number of earlier calls;
    - the streaming callback is a sink: the events it receives are logged
      and it does not throw; the duration of a tool call and the message
      id of the LLM events are left out;
    - [console] and [context.logger] output, token accounting included,
      does not reach the result and is left out;
    - [withRetry] is the retry loop of the library: a failed attempt is
      reported to [onFailedAttempt] and repeated while retries are left;
    - LangGraph is modelled by its message reducer and by a step loop
      bounded by the recursion limit;
    - [formatFinalResponse] and the extraction of thinking tokens live in
      [utils/agent-formatter.js], which is not among the sources at hand:
      the first is a parameter of the [World], the second a field of the
      model's reply. *)

From Stdlib Require Import String Ascii List ZArith NArith QArith Qminmax Qpower.
From Stdlib Require Import Lia Lqa Bool Decimal DecimalString DecimalN DecimalPos DecimalFacts.
Import ListNotations.
Close Scope Q_scope.
Open Scope string_scope.

(* ================================================================= *)
(** ** JSON values, [JSON.stringify] and [JSON.parse] *)

(** Tool arguments and tool outputs.  Numbers are the integers; an object
    is the list of its properties in property order. *)
#[local] Unset Elimination Schemes.
Inductive Json : Type :=
| JNull
| JBool (b : bool)
| JNum (z : Z)
| JStr (s : string)
| JArr (items : list Json)
| JObj (props : list (string * Json)).
#[local] Set Elimination Schemes.

Module JSON.

Definition dquote : ascii := "034"%char.
Definition backslash : ascii := "092"%char.

Definition hexDigit (n : nat) : ascii :=
  match get n "0123456789abcdef" with
  | Some c => c
  | None => "0"%char
  end.

(** One character of a quoted string, as [JSON.stringify] writes it. *)
Definition escapeChar (c : ascii) : string :=
  match nat_of_ascii c with
  | 8 => "\b"
  | 9 => "\t"
  | 10 => "\n"
  | 12 => "\f"
  | 13 => "\r"
  | 34 => String backslash (String dquote "")
  | 92 => "\\"
  | n =>
      if Nat.ltb n 32
      then "\u00" ++ String (hexDigit (Nat.div n 16)) (String (hexDigit (Nat.modulo n 16)) "")
      else String c ""
  end.

Fixpoint escape (s : string) : string :=
  match s with
  | EmptyString => ""
  | String c r => escapeChar c ++ escape r
  end.

Definition quote (s : string) : string :=
  String dquote (escape s ++ String dquote "").

(** Integers in plain decimal, as JavaScript prints a safe integer. *)
Definition printZ (z : Z) : string :=
  match z with
  | Z0 => "0"
  | Zpos p => NilEmpty.string_of_uint (Pos.to_uint p)
  | Zneg p => String "-" (NilEmpty.string_of_uint (Pos.to_uint p))
  end.

Fixpoint join (sep : string) (l : list string) : string :=
  match l with
  | [] => ""
  | [x] => x
  | x :: r => x ++ sep ++ join sep r
  end.

Fixpoint stringify (v : Json) : string :=
  match v with
  | JNull => "null"
  | JBool true => "true"
  | JBool false => "false"
  | JNum z => printZ z
  | JStr s => quote s
  | JArr l => "[" ++ join "," (map stringify l) ++ "]"
  | JObj l =>
      "{" ++ join "," (map (fun kv => quote (fst kv) ++ ":" ++ stringify (snd kv)) l) ++ "}"
  end.

(** *** The parser *)

Definition isWhitespace (c : ascii) : bool :=
  match nat_of_ascii c with
  | 9 | 10 | 13 | 32 => true
  | _ => false
  end.

Fixpoint skip_ws (s : string) : string :=
  match s with
  | String c r => if isWhitespace c then skip_ws r else s
  | EmptyString => s
  end.

Definition digitVal (c : ascii) : option N :=
  let n := N_of_ascii c in
  if (N.leb 48 n && N.leb n 57)%bool then Some (n - 48)%N else None.

Definition hexVal (c : ascii) : option N :=
  let n := N_of_ascii c in
  if (N.leb 48 n && N.leb n 57)%bool then Some (n - 48)%N
  else if (N.leb 97 n && N.leb n 102)%bool then Some (n - 87)%N
  else if (N.leb 65 n && N.leb n 70)%bool then Some (n - 55)%N
  else None.

(** [\uXXXX]: strings are byte strings, so only the escapes of ASCII
    characters are in the model. *)
Definition unicodeEscape (h1 h2 h3 h4 : ascii) : option ascii :=
  match hexVal h1, hexVal h2, hexVal h3, hexVal h4 with
  | Some a, Some b, Some c, Some d =>
      let n := (4096 * a + 256 * b + 16 * c + d)%N in
      if N.ltb n 128 then Some (ascii_of_N n) else None
  | _, _, _, _ => None
  end.

Definition consChar (c : ascii) (r : option (string * string)) : option (string * string) :=
  match r with
  | Some (s, rest) => Some (String c s, rest)
  | None => None
  end.

(** The characters of a string literal up to its closing quote. *)
Fixpoint parse_chars (s : string) : option (string * string) :=
  match s with
  | EmptyString => None
  | String c r =>
      if Ascii.eqb c dquote then Some ("", r)
      else if Ascii.eqb c backslash then
        match r with
        | String e r1 =>
            if Ascii.eqb e dquote then consChar dquote (parse_chars r1)
            else if Ascii.eqb e backslash then consChar backslash (parse_chars r1)
            else if Ascii.eqb e "/" then consChar "/" (parse_chars r1)
            else if Ascii.eqb e "b" then consChar "008" (parse_chars r1)
            else if Ascii.eqb e "f" then consChar "012" (parse_chars r1)
            else if Ascii.eqb e "n" then consChar "010" (parse_chars r1)
            else if Ascii.eqb e "r" then consChar "013" (parse_chars r1)
            else if Ascii.eqb e "t" then consChar "009" (parse_chars r1)
            else if Ascii.eqb e "u" then
              match r1 with
              | String h1 (String h2 (String h3 (String h4 r2))) =>
                  match unicodeEscape h1 h2 h3 h4 with
                  | Some ch => consChar ch (parse_chars r2)
                  | None => None
                  end
              | _ => None
              end
            else None
        | EmptyString => None
        end
      else if Nat.ltb (nat_of_ascii c) 32 then None
      else consChar c (parse_chars r)
  end.

Fixpoint parse_digits (acc : N) (s : string) : N * string :=
  match s with
  | String c r =>
      match digitVal c with
      | Some d => parse_digits (10 * acc + d)%N r
      | None => (acc, s)
      end
  | EmptyString => (acc, s)
  end.

Definition MAX_SAFE_INTEGER : Z := 9007199254740991.

(** The tail of a number after its integer part: a fraction or an exponent
    is outside the integer model. *)
Definition integerEnds (s : string) : bool :=
  match s with
  | String c _ =>
      negb (Ascii.eqb c "." || Ascii.eqb c "e" || Ascii.eqb c "E")%bool
  | EmptyString => true
  end.

Definition parse_nat (s : string) : option (N * string) :=
  match s with
  | String c r =>
      match digitVal c with
      | Some 0%N =>
          match r with
          | String c' _ =>
              match digitVal c' with
              | Some _ => None
              | None => Some (0%N, r)
              end
          | EmptyString => Some (0%N, r)
          end
      | Some d => Some (parse_digits d r)
      | None => None
      end
  | EmptyString => None
  end.

Definition parse_number (s : string) : option (Z * string) :=
  let '(neg, body) :=
    match s with
    | String c r => if Ascii.eqb c "-" then (true, r) else (false, s)
    | EmptyString => (false, s)
    end in
  match parse_nat body with
  | Some (n, rest) =>
      if (integerEnds rest && Z.leb (Z.of_N n) MAX_SAFE_INTEGER)%bool
      then Some (if neg then Z.opp (Z.of_N n) else Z.of_N n, rest)
      else None
  | None => None
  end.

Fixpoint expect (lit : string) (s : string) : option string :=
  match lit, s with
  | EmptyString, _ => Some s
  | String a l, String b r => if Ascii.eqb a b then expect l r else None
  | String _ _, EmptyString => None
  end.

(** Property assignment on an object under construction: a repeated key
    keeps its place and takes the later value. *)
Fixpoint obj_set (k : string) (v : Json) (o : list (string * Json)) : list (string * Json) :=
  match o with
  | [] => [(k, v)]
  | (k', v') :: r => if String.eqb k' k then (k', v) :: r else (k', v') :: obj_set k v r
  end.

Fixpoint parse_elements (value : string -> option (Json * string)) (n : nat) (s : string)
  : option (list Json * string) :=
  match n with
  | O => None
  | S n' =>
      match value s with
      | Some (v, r) =>
          match skip_ws r with
          | String c r' =>
              if Ascii.eqb c "," then
                match parse_elements value n' r' with
                | Some (l, rest) => Some (v :: l, rest)
                | None => None
                end
              else if Ascii.eqb c "]" then Some ([v], r')
              else None
          | EmptyString => None
          end
      | None => None
      end
  end.

Fixpoint parse_members (value : string -> option (Json * string)) (n : nat)
  (acc : list (string * Json)) (s : string) : option (list (string * Json) * string) :=
  match n with
  | O => None
  | S n' =>
      match skip_ws s with
      | String q r =>
          if Ascii.eqb q dquote then
            match parse_chars r with
            | Some (k, r1) =>
                match skip_ws r1 with
                | String c r2 =>
                    if Ascii.eqb c ":" then
                      match value r2 with
                      | Some (v, r3) =>
                          match skip_ws r3 with
                          | String d r4 =>
                              if Ascii.eqb d "," then parse_members value n' (obj_set k v acc) r4
                              else if Ascii.eqb d "}" then Some (obj_set k v acc, r4)
                              else None
                          | EmptyString => None
                          end
                      | None => None
                      end
                    else None
                | EmptyString => None
                end
            | None => None
            end
          else None
      | EmptyString => None
      end
  end.

Definition withValue {A : Type} (f : A -> Json) (r : option (A * string)) : option (Json * string) :=
  match r with
  | Some (a, rest) => Some (f a, rest)
  | None => None
  end.

Fixpoint parse_value (fuel : nat) (s : string) : option (Json * string) :=
  match fuel with
  | O => None
  | S f =>
      match skip_ws s with
      | String c r =>
          if Ascii.eqb c "n" then withValue (fun _ => JNull) (option_map (pair tt) (expect "ull" r))
          else if Ascii.eqb c "t" then withValue (fun _ => JBool true) (option_map (pair tt) (expect "rue" r))
          else if Ascii.eqb c "f" then withValue (fun _ => JBool false) (option_map (pair tt) (expect "alse" r))
          else if Ascii.eqb c dquote then withValue JStr (parse_chars r)
          else if Ascii.eqb c "[" then
            match skip_ws r with
            | String c' r' =>
                if Ascii.eqb c' "]" then Some (JArr [], r')
                else withValue JArr (parse_elements (parse_value f) f r)
            | EmptyString => None
            end
          else if Ascii.eqb c "{" then
            match skip_ws r with
            | String c' r' =>
                if Ascii.eqb c' "}" then Some (JObj [], r')
                else withValue JObj (parse_members (parse_value f) f [] r)
            | EmptyString => None
            end
          else withValue JNum (parse_number (String c r))
      | EmptyString => None
      end
  end.

(** [JSON.parse]: [None] stands for the [SyntaxError] it throws, and for
    the documents outside the model: those with a fraction, an exponent,
    an unsafe integer or the escape of a non-ASCII character. *)
Definition parse (s : string) : option Json :=
  match parse_value (S (String.length s)) s with
  | Some (v, rest) =>
      match skip_ws rest with
      | EmptyString => Some v
      | String _ _ => None
      end
  | None => None
  end.

(** *** JSON-serializable values

    A JavaScript value that [JSON.stringify] writes without loss: its
    integers are safe integers and no object has a property twice. *)







(** The statements of the round trip. *)



End JSON.

(* ================================================================= *)
(** ** Model configuration and fallback derivation *)

(** [BackupModelConfigSchema]: the four fields a backup may set.  There is
    no field for a backup of the backup. *)
Record BackupModelConfig : Type := {
  backup_model : string;
  backup_temperature : option Q;
  backup_maxTokens : option Q;
  backup_maxRetries : option nat
}.

(** The parsed [ModelConfigSchema]. *)
Record ModelConfig : Type := {
  model : string;
  temperature : Q;
  maxTokens : Q;
  maxRetries : nat;
  provider : option (list string);
  jsonMode : bool;
  backupModel : option BackupModelConfig
}.

(** [a ?? b] *)
Definition nullish {A : Type} (a : option A) (b : A) : A :=
  match a with
  | Some x => x
  | None => b
  end.

Definition buildModelConfig (primaryConfig : ModelConfig)
  (backupConfig : option BackupModelConfig) : ModelConfig :=
  match backupConfig with
  | None => primaryConfig
  | Some backupConfig =>
      {| model := backup_model backupConfig;
         temperature := nullish (backup_temperature backupConfig) (temperature primaryConfig);
         maxTokens := nullish (backup_maxTokens backupConfig) (maxTokens primaryConfig);
         maxRetries := nullish (backup_maxRetries backupConfig) (maxRetries primaryConfig);
         provider := provider primaryConfig;
         jsonMode := jsonMode primaryConfig;
         backupModel := None |}
  end.

(* ================================================================= *)
(** ** Retry backoff *)

Definition baseDelay : Q := 1000.
Definition maxDelay : Q := 32000.

(** [Math.min(baseDelay * Math.pow(2, attemptNumber - 1), maxDelay)] *)
Definition delay (attemptNumber : Z) : Q :=
  Qmin (baseDelay * Qpower 2 (attemptNumber - 1)) maxDelay.

(** The time slept by [exponentialBackoff], in milliseconds; [random] is
    the value of [Math.random()]. *)
Definition exponentialBackoff (attemptNumber : Z) (random : Q) : Q :=
  let jitter := (delay attemptNumber * (25 # 100) * (random - (5 # 10)))%Q in
  (delay attemptNumber + jitter)%Q.

(* ================================================================= *)
(** ** Thrown values *)

(** What a [catch] clause receives: an [Error] with its message, or any
    other value, with its [String(...)] text. *)
Inductive Thrown : Type :=
| ErrorObj (message : string)
| OtherValue (text : string).

(** [error instanceof Error ? error.message : 'Unknown error'] *)
Definition messageOrUnknown (e : Thrown) : string :=
  match e with
  | ErrorObj m => m
  | OtherValue _ => "Unknown error"
  end.

(** [error instanceof Error ? error.message : String(error)] *)
Definition messageOrString (e : Thrown) : string :=
  match e with
  | ErrorObj m => m
  | OtherValue t => t
  end.

(** The result of awaiting an external collaborator. *)
Inductive Try (A : Type) : Type :=
| Returned (a : A)
| Raised (e : Thrown).
Arguments Returned {A} a.
Arguments Raised {A} e.

(* ================================================================= *)
(** ** Messages *)

(** A message id is given by the provider or drawn by the graph state
    ([uuid.v4()], modelled as a fresh counter value). *)
Inductive MessageId : Type :=
| ProviderId (s : string)
| Uuid (n : nat).

Definition MessageId_eqb (a b : MessageId) : bool :=
  match a, b with
  | ProviderId x, ProviderId y => String.eqb x y
  | Uuid x, Uuid y => Nat.eqb x y
  | _, _ => false
  end.

Record ToolCall : Type := {
  call_id : string;
  call_name : string;
  call_args : Json
}.

Inductive ContentPart : Type :=
| TextPart (text : string)
| ImageUrlPart (url : string).

Inductive Content : Type :=
| Text (s : string)
| Parts (l : list ContentPart).

(** [HumanMessage], [AIMessage] (or [AIMessageChunk]) with its
    [tool_calls] and [additional_kwargs.finishReason], [ToolMessage]. *)
Inductive MessageKind : Type :=
| HumanMessage (content : Content)
| AIMessage (content : Content) (tool_calls : list ToolCall) (finishReason : option string)
| ToolMessage (content : string) (tool_call_id : string).

Record BaseMessage : Type := {
  id : option MessageId;
  kind : MessageKind
}.

Definition newMessage (k : MessageKind) : BaseMessage := {| id := None; kind := k |}.

Definition tool_calls_of (m : BaseMessage) : list ToolCall :=
  match kind m with
  | AIMessage _ calls _ => calls
  | _ => []
  end.

Definition isAIMessage (m : BaseMessage) : bool :=
  match kind m with
  | AIMessage _ _ _ => true
  | _ => false
  end.

(* ================================================================= *)
(** ** Parameters and collaborators *)

Inductive CredentialType : Type :=
| OPENAI_CRED
| GOOGLE_GEMINI_CRED
| ANTHROPIC_CRED
| OPENROUTER_CRED.

Inductive ImageInput : Type :=
| Base64Image (data mimeType : string) (description : option string)
| UrlImage (url : string) (description : option string).

(** [DynamicStructuredTool]: a name and the function behind [invoke]. *)
Record DynamicStructuredTool : Type := {
  name : string;
  func : Json -> Try Json
}.

(** A custom tool of the parameters; [schemaOk] tells whether building the
    [DynamicStructuredTool] from its schema succeeds. *)
Record CustomTool : Type := {
  custom_tool : DynamicStructuredTool;
  schemaOk : bool
}.

(** What [factory.get] finds for a pre-registered tool name. *)
Record ToolBubbleClass : Type := {
  isToolBubble : bool;
  toolAgent : option (Try DynamicStructuredTool)
}.

Record HookBeforeResult : Type := {
  before_messages : option (list BaseMessage);
  before_toolInput : Json
}.

Record HookAfterResult : Type := {
  after_messages : option (list BaseMessage);
  shouldStop : option bool
}.

(** [beforeToolCall({toolName, toolInput, messages})] *)
Definition ToolHookBefore : Type :=
  string -> Json -> list BaseMessage -> Try (option HookBeforeResult).

(** [afterToolCall({toolName, toolInput, toolOutput, messages})] *)
Definition ToolHookAfter : Type :=
  string -> Json -> Json -> list BaseMessage -> Try (option HookAfterResult).

(** The answer of one call of the chat model. *)
Record AIReply : Type := {
  reply_id : option string;
  reply_content : Content;
  reply_tool_calls : list ToolCall;
  reply_finishReason : option string;
  reply_thinking : option string
}.

Inductive FetchResponse : Type :=
| FetchOk (contentType : option string) (base64Data : string)
| FetchNotOk (status statusText : string).

(** [formatFinalResponse] of [utils/agent-formatter.js]. *)
Record FormattedResult : Type := {
  formatted_response : string;
  formatted_error : option string
}.

Record AIAgentParams : Type := {
  params_message : string;
  params_images : list ImageInput;
  params_systemPrompt : string;
  params_model : ModelConfig;
  params_tools : list string;
  params_customTools : list CustomTool;
  params_maxIterations : nat;
  params_credentials : option (CredentialType -> option string);
  beforeToolCallHook : option ToolHookBefore;
  afterToolCallHook : option ToolHookAfter;
  streamingCallback : bool
}.

(** Everything outside the engine.  [chat n cfg toolNames messages] is the
    [n]-th call of the model built from [cfg] with the named tools bound. *)
Record World : Type := {
  params : AIAgentParams;
  chat : nat -> ModelConfig -> list string -> list BaseMessage -> Try AIReply;
  fetch : string -> Try FetchResponse;
  registerDefaults : option Thrown;
  factory : string -> option ToolBubbleClass;
  formatFinalResponse : Content -> string -> bool -> FormattedResult;
  random : nat -> Q
}.

(* ================================================================= *)
(** ** Effects of a run *)

Inductive StreamingEvent : Type :=
| llm_start (model : string) (temperature : Q)
| think (content : string)
| llm_complete
| tool_start (tool : string) (input : Json) (callId : string)
| tool_complete (callId : string) (input : Json) (tool : string) (output : Json)
| error_event (message : string) (recoverable : bool).

(** What a run does, in order: the events handed to the streaming
    callback, the calls of the chat model and of the tools, the time
    slept, what an after-hook answered about stopping, and every entry
    into [executeWithModel]. *)
Inductive Effect : Type :=
| Emit (e : StreamingEvent)
| Invoke (cfg : ModelConfig) (toolNames : list string) (messages : list BaseMessage)
| Sleep (ms : Q)
| ToolInvoke (tool : string) (args : Json)
| HookAfter (callId : string) (stop : bool)
| Execute (cfg : ModelConfig).

(** The bubble instance during a run: its [shouldStopAfterTools] field,
    and the effects and draws made so far. *)
Record Instance : Type := {
  shouldStopAfterTools : bool;
  effects : list Effect;
  uuids : nat;
  draws : nat;
  invocations : nat
}.

Definition newInstance : Instance :=
  {| shouldStopAfterTools := false; effects := []; uuids := 0; draws := 0; invocations := 0 |}.

(** An awaited computation ends with a value, throws, or (in the model
    only) runs out of fuel. *)
Inductive Outcome (A : Type) : Type :=
| Done (a : A)
| Throws (e : Thrown)
| Starved.
Arguments Done {A} a.
Arguments Throws {A} e.
Arguments Starved {A}.

Definition Async (A : Type) : Type := Instance -> Outcome A * Instance.

Definition ret {A : Type} (a : A) : Async A := fun i => (Done a, i).

Definition throw {A : Type} (e : Thrown) : Async A := fun i => (Throws e, i).

Definition starve {A : Type} : Async A := fun i => (Starved, i).

Definition bind {A B : Type} (m : Async A) (k : A -> Async B) : Async B :=
  fun i =>
    match m i with
    | (Done a, i') => k a i'
    | (Throws e, i') => (Throws e, i')
    | (Starved, i') => (Starved, i')
    end.

Notation "x <- m ;; k" := (bind m (fun x => k))
  (at level 61, m at next level, right associativity).
Notation "m ;;; k" := (bind m (fun _ => k))
  (at level 61, right associativity).

(** [try { m } catch (error) { handler error }] *)
Definition tryCatch {A : Type} (m : Async A) (handler : Thrown -> Async A) : Async A :=
  fun i =>
    match m i with
    | (Done a, i') => (Done a, i')
    | (Throws e, i') => handler e i'
    | (Starved, i') => (Starved, i')
    end.

Definition perform (e : Effect) : Async unit :=
  fun i =>
    (Done tt,
     {| shouldStopAfterTools := shouldStopAfterTools i;
        effects := effects i ++ [e];
        uuids := uuids i;
        draws := draws i;
        invocations := invocations i |}).

Definition setShouldStopAfterTools (b : bool) : Async unit :=
  fun i =>
    (Done tt,
     {| shouldStopAfterTools := b;
        effects := effects i;
        uuids := uuids i;
        draws := draws i;
        invocations := invocations i |}).

Definition getShouldStopAfterTools : Async bool :=
  fun i => (Done (shouldStopAfterTools i), i).

(** [uuid.v4()] *)
Definition v4 : Async MessageId :=
  fun i =>
    (Done (Uuid (uuids i)),
     {| shouldStopAfterTools := shouldStopAfterTools i;
        effects := effects i;
        uuids := S (uuids i);
        draws := draws i;
        invocations := invocations i |}).

(** [Math.random()] *)
Definition Math_random (random : nat -> Q) : Async Q :=
  fun i =>
    (Done (random (draws i)),
     {| shouldStopAfterTools := shouldStopAfterTools i;
        effects := effects i;
        uuids := uuids i;
        draws := S (draws i);
        invocations := invocations i |}).

Definition nextInvocation : Async nat :=
  fun i =>
    (Done (invocations i),
     {| shouldStopAfterTools := shouldStopAfterTools i;
        effects := effects i;
        uuids := uuids i;
        draws := draws i;
        invocations := S (invocations i) |}).

Fixpoint mapM {A B : Type} (f : A -> Async B) (l : list A) : Async (list B) :=
  match l with
  | [] => ret []
  | a :: r => b <- f a ;; bs <- mapM f r ;; ret (b :: bs)
  end.

(* ================================================================= *)
(** ** The message state of the graph

    [MessagesAnnotation] keeps the history with LangGraph's
    [messagesStateReducer]: every message gets an id, an update with a
    known id replaces that message in place, any other update is
    appended. *)

Definition sameId (a b : option MessageId) : bool :=
  match a, b with
  | Some x, Some y => MessageId_eqb x y
  | _, _ => false
  end.

Definition assignId (m : BaseMessage) : Async BaseMessage :=
  match id m with
  | Some _ => ret m
  | None => u <- v4 ;; ret {| id := Some u; kind := kind m |}
  end.

Fixpoint upsert (m : BaseMessage) (merged : list BaseMessage) : list BaseMessage :=
  match merged with
  | [] => [m]
  | x :: r => if sameId (id x) (id m) then m :: r else x :: upsert m r
  end.

Definition messagesStateReducer (left right : list BaseMessage) : Async (list BaseMessage) :=
  leftMessages <- mapM assignId left ;;
  rightMessages <- mapM assignId right ;;
  ret (fold_left (fun merged m => upsert m merged) rightMessages leftMessages).

(* ================================================================= *)
(** ** The engine *)

(** [haystack.includes(needle)] *)
Definition includes (needle haystack : string) : bool :=
  match String.index 0 needle haystack with
  | Some _ => true
  | None => false
  end.

(** [`${n}`] for a counter *)
Definition showNat (n : nat) : string := JSON.printZ (Z.of_nat n).

Definition setArgs (args : Json) (c : ToolCall) : ToolCall :=
  {| call_id := call_id c; call_name := call_name c; call_args := args |}.

Fixpoint setArgsAt (i : nat) (args : Json) (calls : list ToolCall) : list ToolCall :=
  match calls, i with
  | [], _ => []
  | c :: r, O => setArgs args c :: r
  | c :: r, S j => c :: setArgsAt j args r
  end.

Definition withToolCalls (calls : list ToolCall) (m : BaseMessage) : BaseMessage :=
  match kind m with
  | AIMessage c _ fr => {| id := id m; kind := AIMessage c calls fr |}
  | _ => m
  end.

(** The AI message whose calls are executed is one object: an assignment
    to [toolCall.args] is seen wherever that message (known by its id) is
    held. *)
Definition aliased (lastId : option MessageId) (calls : list ToolCall)
  (messages : list BaseMessage) : list BaseMessage :=
  map (fun m => if sameId (id m) lastId then withToolCalls calls m else m) messages.

(** The locals of [executeToolsWithHooks], and [lastMessage.tool_calls]
    as assigned so far. *)
Record Batch : Type := {
  toolMessages : list BaseMessage;
  currentMessages : list BaseMessage;
  assigned_calls : list ToolCall
}.

(** What the tool node hands back: its [{ messages }] and the calls of
    [lastMessage] after the assignments to [toolCall.args]. *)
Record ToolNodeResult : Type := {
  update : list BaseMessage;
  lastMessage_tool_calls : list ToolCall
}.

(** One entry of the result's [toolCalls]. *)
Record ToolCallRecord : Type := {
  tool : string;
  input : Json;
  output : Json
}.

(** [AIAgentResultSchema] *)
Record AIAgentResult : Type := {
  response : string;
  toolCalls : list ToolCallRecord;
  iterations : nat;
  error : string;
  success : bool
}.

(** [toolCallMap]: the latest entry for a key is found first. *)
Fixpoint toolCallMap_get (key : string) (m : list (string * (string * Json)))
  : option (string * Json) :=
  match m with
  | [] => None
  | (k, v) :: r => if String.eqb k key then Some v else toolCallMap_get key r
  end.

Definition toolCallMap_set (m : list (string * (string * Json))) (c : ToolCall)
  : list (string * (string * Json)) :=
  (call_id c, (call_name c, call_args c)) :: m.

(** The output of a tool message: [JSON.parse] of its content, or the
    content itself when that is not JSON. *)
Definition parsedOutput (content : string) : Json :=
  match JSON.parse content with
  | Some v => v
  | None => JStr content
  end.

(** The accounting loop of [executeAgent] over [result.messages]. *)
Fixpoint accountToolCalls (messages : list BaseMessage)
  (toolCallMap : list (string * (string * Json))) (acc : list ToolCallRecord)
  : list ToolCallRecord :=
  match messages with
  | [] => acc
  | msg :: rest =>
      match kind msg with
      | AIMessage _ typedToolCalls _ =>
          accountToolCalls rest (fold_left toolCallMap_set typedToolCalls toolCallMap) acc
      | ToolMessage content tool_call_id =>
          match toolCallMap_get tool_call_id toolCallMap with
          | Some (toolName, args) =>
              accountToolCalls rest toolCallMap
                (acc ++ [{| tool := toolName; input := args; output := parsedOutput content |}])
          | None => accountToolCalls rest toolCallMap acc
          end
      | HumanMessage _ => accountToolCalls rest toolCallMap acc
      end
  end.

(** [aiMessages[aiMessages.length - 1]] *)
Definition finalMessageOf (messages : list BaseMessage) : option BaseMessage :=
  last (map Some (filter isAIMessage messages)) None.

Definition finishReasonOf (finalMessage : option BaseMessage) : option string :=
  match finalMessage with
  | Some m =>
      match kind m with
      | AIMessage _ _ reason => reason
      | _ => None
      end
  | None => None
  end.

(** [finalMessage?.content || ''] *)
Definition contentOf (finalMessage : option BaseMessage) : Content :=
  match finalMessage with
  | Some m =>
      match kind m with
      | AIMessage c _ _ => c
      | HumanMessage c => c
      | ToolMessage c _ => Text c
      end
  | None => Text ""
  end.

(** A string in a condition: the empty string is falsy. *)
Definition truthy (s : option string) : option string :=
  match s with
  | Some x => if String.eqb x "" then None else Some x
  | None => None
  end.

Definition reasonIs (reason : option string) (expected : string) : bool :=
  match reason with
  | Some r => String.eqb r expected
  | None => false
  end.

Definition safetyBlockedError : Thrown :=
  ErrorObj "[Gemini Error] Unable to generate a response. Please increase maxTokens in model configuration or try again with a different model.".

Definition maxTokensError : Thrown :=
  ErrorObj "Response was truncated due to max tokens limit. Please increase maxTokens in model configuration.".

Definition toUpperChar (c : ascii) : ascii :=
  let n := nat_of_ascii c in
  if (Nat.leb 97 n && Nat.leb n 122)%bool then ascii_of_nat (n - 32) else c.

Fixpoint toUpperCase (s : string) : string :=
  match s with
  | EmptyString => EmptyString
  | String c r => String (toUpperChar c) (toUpperCase r)
  end.

Fixpoint beforeSlash (s : string) : option string :=
  match s with
  | EmptyString => None
  | String c r => if Ascii.eqb c "/" then Some "" else option_map (String c) (beforeSlash r)
  end.

(** [model.substring(0, model.indexOf('/'))] *)
Definition providerOf (modelName : string) : string :=
  match beforeSlash modelName with
  | Some p => p
  | None => ""
  end.

Definition credentialTypeOf (providerName : string) : option CredentialType :=
  if String.eqb providerName "openai" then Some OPENAI_CRED
  else if String.eqb providerName "google" then Some GOOGLE_GEMINI_CRED
  else if String.eqb providerName "anthropic" then Some ANTHROPIC_CRED
  else if String.eqb providerName "openrouter" then Some OPENROUTER_CRED
  else None.

(** [observe m] runs [m] and hands a thrown value to the caller, as the
    [try] block of [executeAgent] does. *)
Definition observe {A : Type} (m : Async A) : Async (Try A) :=
  fun i =>
    match m i with
    | (Done a, i') => (Done (Returned a), i')
    | (Throws e, i') => (Done (Raised e), i')
    | (Starved, i') => (Starved, i')
    end.

Section Engine.

Variable w : World.

Definition emit (e : StreamingEvent) : Async unit :=
  if streamingCallback (params w) then perform (Emit e) else ret tt.

Definition callBefore (toolName : string) (toolInput : Json) (messages : list BaseMessage)
  : Try (option HookBeforeResult) :=
  match beforeToolCallHook (params w) with
  | Some hook => hook toolName toolInput messages
  | None => Returned None
  end.

Definition callAfter (toolName : string) (toolInput toolOutput : Json)
  (messages : list BaseMessage) : Try (option HookAfterResult) :=
  match afterToolCallHook (params w) with
  | Some hook => hook toolName toolInput toolOutput messages
  | None => Returned None
  end.

Definition notFoundMessage (toolCall : ToolCall) : BaseMessage :=
  newMessage (ToolMessage ("Error: Tool " ++ call_name toolCall ++ " not found") (call_id toolCall)).

Definition errorMessage (error : Thrown) (toolCall : ToolCall) : BaseMessage :=
  newMessage (ToolMessage ("Error: " ++ messageOrUnknown error) (call_id toolCall)).

(** [typeof toolOutput === 'string' ? toolOutput : JSON.stringify(toolOutput)] *)
Definition toolContent (toolOutput : Json) : string :=
  match toolOutput with
  | JStr s => s
  | _ => JSON.stringify toolOutput
  end.

(** The [catch] clause of one tool call. *)
Definition caught (error : Thrown) (toolCall : ToolCall) (b : Batch) : Batch :=
  {| toolMessages := toolMessages b ++ [errorMessage error toolCall];
     currentMessages := currentMessages b ++ [errorMessage error toolCall];
     assigned_calls := assigned_calls b |}.

Definition applyBefore (lastId : option MessageId) (i : nat)
  (hookResult_before : option HookBeforeResult) (b : Batch) : Batch :=
  match hookResult_before with
  | Some r =>
      let calls := setArgsAt i (before_toolInput r) (assigned_calls b) in
      {| toolMessages := toolMessages b;
         currentMessages := aliased lastId calls (nullish (before_messages r) (currentMessages b));
         assigned_calls := calls |}
  | None => b
  end.

Definition argsAfterBefore (hookResult_before : option HookBeforeResult) (toolCall : ToolCall) : Json :=
  match hookResult_before with
  | Some r => before_toolInput r
  | None => call_args toolCall
  end.

Definition pushToolMessage (toolMessage : BaseMessage) (b : Batch) : Batch :=
  {| toolMessages := toolMessages b ++ [toolMessage];
     currentMessages := currentMessages b ++ [toolMessage];
     assigned_calls := assigned_calls b |}.

Definition applyAfter (lastId : option MessageId) (hookResult_after : option HookAfterResult)
  (b : Batch) : Batch :=
  match hookResult_after with
  | Some r =>
      {| toolMessages := toolMessages b;
         currentMessages :=
           match after_messages r with
           | Some ms => aliased lastId (assigned_calls b) ms
           | None => currentMessages b
           end;
         assigned_calls := assigned_calls b |}
  | None => b
  end.

Definition requestsStop (hookResult_after : option HookAfterResult) : bool :=
  match hookResult_after with
  | Some r =>
      match shouldStop r with
      | Some true => true
      | _ => false
      end
  | None => false
  end.

(** The body of the loop over [toolCalls], for the call at index [i]. *)
Definition runToolCall (tools : list DynamicStructuredTool) (lastId : option MessageId)
  (i : nat) (toolCall : ToolCall) (b : Batch) : Async Batch :=
  match find (fun t => String.eqb (name t) (call_name toolCall)) tools with
  | None =>
      ret {| toolMessages := toolMessages b ++ [notFoundMessage toolCall];
             currentMessages := currentMessages b;
             assigned_calls := assigned_calls b |}
  | Some tool =>
      match callBefore (call_name toolCall) (call_args toolCall) (currentMessages b) with
      | Raised error => ret (caught error toolCall b)
      | Returned hookResult_before =>
          emit (tool_start (call_name toolCall) (call_args toolCall) (call_id toolCall)) ;;;
          let b1 := applyBefore lastId i hookResult_before b in
          let args := argsAfterBefore hookResult_before toolCall in
          perform (ToolInvoke (name tool) args) ;;;
          match func tool args with
          | Raised error => ret (caught error toolCall b1)
          | Returned toolOutput =>
              let toolMessage := newMessage (ToolMessage (toolContent toolOutput) (call_id toolCall)) in
              let b2 := pushToolMessage toolMessage b1 in
              match callAfter (call_name toolCall) args toolOutput (currentMessages b2) with
              | Raised error => ret (caught error toolCall b2)
              | Returned hookResult_after =>
                  perform (HookAfter (call_id toolCall) (requestsStop hookResult_after)) ;;;
                  (if requestsStop hookResult_after
                   then setShouldStopAfterTools true else ret tt) ;;;
                  emit (tool_complete (call_id toolCall) args (call_name toolCall) toolOutput) ;;;
                  ret (applyAfter lastId hookResult_after b2)
              end
          end
      end
  end.

Fixpoint forEachToolCall (tools : list DynamicStructuredTool) (lastId : option MessageId)
  (i : nat) (toolCalls : list ToolCall) (b : Batch) : Async Batch :=
  match toolCalls with
  | [] => ret b
  | toolCall :: rest =>
      b' <- runToolCall tools lastId i toolCall b ;;
      forEachToolCall tools lastId (S i) rest b'
  end.

Definition TypeError_undefined : Thrown :=
  ErrorObj "Cannot read properties of undefined".

Definition executeToolsWithHooks (messages : list BaseMessage)
  (tools : list DynamicStructuredTool) : Async ToolNodeResult :=
  match last (map Some messages) None with
  | None => throw TypeError_undefined
  | Some lastMessage =>
      let toolCalls := tool_calls_of lastMessage in
      setShouldStopAfterTools false ;;;
      b <- forEachToolCall tools (id lastMessage) 0 toolCalls
             {| toolMessages := []; currentMessages := messages; assigned_calls := toolCalls |} ;;
      if negb (Nat.eqb (length (currentMessages b)) (length messages + length (toolMessages b)))
      then ret {| update := currentMessages b; lastMessage_tool_calls := assigned_calls b |}
      else ret {| update := toolMessages b; lastMessage_tool_calls := assigned_calls b |}
  end.

(** *** The agent node *)

(** The time slept by [exponentialBackoff] is logged as a [Sleep]. *)
Definition sleepBackoff (attemptNumber : nat) : Async unit :=
  r <- Math_random (random w) ;;
  perform (Sleep (exponentialBackoff (Z.of_nat attemptNumber) r)).

Definition onFailedAttempt (error : Thrown) (attemptNumber retriesLeft : nat) : Async unit :=
  emit (error_event
          ("Retry attempt " ++ showNat attemptNumber ++ "/"
             ++ showNat (maxRetries (params_model (params w))) ++ ": " ++ messageOrString error)
          (Nat.ltb 0 retriesLeft)) ;;;
  if Nat.ltb 0 retriesLeft then sleepBackoff attemptNumber else ret tt.

(** [modelWithTools.invoke(allMessages)] under [withRetry]: a failed
    attempt is reported to [onFailedAttempt] and repeated while retries
    are left; the last error is thrown. *)
Fixpoint invokeWithRetry (retriesLeft attemptNumber : nat) (modelConfig : ModelConfig)
  (toolNames : list string) (allMessages : list BaseMessage) : Async AIReply :=
  n <- nextInvocation ;;
  perform (Invoke modelConfig toolNames allMessages) ;;;
  emit (llm_start (model (params_model (params w))) (temperature (params_model (params w)))) ;;;
  match chat w n modelConfig toolNames allMessages with
  | Returned reply =>
      match reply_thinking reply with
      | Some thinking => if String.eqb thinking "" then ret tt else emit (think thinking)
      | None => ret tt
      end ;;;
      emit llm_complete ;;;
      ret reply
  | Raised error =>
      onFailedAttempt error attemptNumber retriesLeft ;;;
      match retriesLeft with
      | O => throw error
      | S k => invokeWithRetry k (S attemptNumber) modelConfig toolNames allMessages
      end
  end.

Definition messageOfReply (reply : AIReply) : BaseMessage :=
  {| id := option_map ProviderId (reply_id reply);
     kind := AIMessage (reply_content reply) (reply_tool_calls reply) (reply_finishReason reply) |}.

Definition isCandidateContentError (errorMessage : string) : bool :=
  (includes "candidateContent" errorMessage
   || includes "parts.reduce" errorMessage
   || includes "undefined is not an object" errorMessage)%bool.

Definition agentNode (modelConfig : ModelConfig) (tools : list DynamicStructuredTool)
  (messages : list BaseMessage) : Async (list BaseMessage) :=
  let systemMessage := newMessage (HumanMessage (Text (params_systemPrompt (params w)))) in
  let allMessages := systemMessage :: messages in
  let stopAfterAttempt := maxRetries (params_model (params w)) in
  tryCatch
    (response <- invokeWithRetry (stopAfterAttempt - 1) 1 modelConfig (map name tools) allMessages ;;
     ret [messageOfReply response])
    (fun error =>
       let errorMessage := messageOrString error in
       if isCandidateContentError errorMessage
       then ret [newMessage
                   (AIMessage
                      (Text ("[Gemini Error] Unable to generate response due to content filtering. Error: "
                               ++ errorMessage))
                      [] (Some "ERROR"))]
       else throw error).

(** *** The graph *)

Inductive Node : Type :=
| agent
| tools
| __end__.

Definition shouldContinue (messages : list BaseMessage) : Async Node :=
  match last (map Some messages) None with
  | Some lastMessage =>
      match tool_calls_of lastMessage with
      | [] => ret __end__
      | _ :: _ => ret tools
      end
  | None => throw TypeError_undefined
  end.

Definition shouldContinueAfterTools : Async Node :=
  stop <- getShouldStopAfterTools ;;
  if stop then ret __end__ else ret agent.

(** The state after the tool node ran: [lastMessage] carries the
    assignments made to its calls. *)
Fixpoint mutateLast (calls : list ToolCall) (messages : list BaseMessage) : list BaseMessage :=
  match messages with
  | [] => []
  | [m] => [withToolCalls calls m]
  | m :: r => m :: mutateLast calls r
  end.

Definition GraphRecursionError : Thrown :=
  ErrorObj "Recursion limit reached without hitting a stop condition.".

(** The compiled graph of [createAgentGraph], run as LangGraph runs it:
    one node per step, the node's messages merged into the state, at most
    [recursionLimit] steps. *)
Fixpoint runGraph (modelConfig : ModelConfig) (agentTools : list DynamicStructuredTool)
  (recursionLimit : nat) (node : Node) (messages : list BaseMessage)
  : Async (list BaseMessage) :=
  match node with
  | __end__ => ret messages
  | _ =>
      match recursionLimit with
      | O => throw GraphRecursionError
      | S limit =>
          match node with
          | agent =>
              response <- agentNode modelConfig agentTools messages ;;
              messages' <- messagesStateReducer messages response ;;
              next <- match agentTools with
                      | [] => ret __end__
                      | _ :: _ => shouldContinue messages'
                      end ;;
              runGraph modelConfig agentTools limit next messages'
          | tools =>
              result <- executeToolsWithHooks messages agentTools ;;
              messages' <- messagesStateReducer
                             (mutateLast (lastMessage_tool_calls result) messages)
                             (update result) ;;
              next <- shouldContinueAfterTools ;;
              runGraph modelConfig agentTools limit next messages'
          | __end__ => ret messages
          end
      end
  end.

(** [graph.invoke({ messages: [humanMessage] }, { recursionLimit })] *)
Definition invokeGraph (modelConfig : ModelConfig) (agentTools : list DynamicStructuredTool)
  (humanMessage : BaseMessage) (recursionLimit : nat) : Async (list BaseMessage) :=
  messages <- messagesStateReducer [] [humanMessage] ;;
  runGraph modelConfig agentTools recursionLimit agent messages.

(** *** [executeAgent], [executeWithModel] and [performAction] *)

Definition descriptionParts (description : option string) : list ContentPart :=
  match truthy description with
  | Some d => [TextPart ("Image description: " ++ d)]
  | None => []
  end.

Definition imageParts (image : ImageInput) : Async (list ContentPart) :=
  match image with
  | Base64Image data mimeType description =>
      ret (ImageUrlPart ("data:" ++ mimeType ++ ";base64," ++ data) :: descriptionParts description)
  | UrlImage url description =>
      imageUrl <-
        match fetch w url with
        | Raised e =>
            throw (ErrorObj ("Failed to load image from URL " ++ url ++ ": " ++ messageOrUnknown e))
        | Returned (FetchNotOk status statusText) =>
            throw (ErrorObj ("Failed to load image from URL " ++ url ++ ": "
                               ++ "Failed to fetch image: " ++ status ++ " " ++ statusText))
        | Returned (FetchOk contentType base64Data) =>
            ret ("data:" ++ nullish (truthy contentType) "image/png" ++ ";base64," ++ base64Data)
        end ;;
      ret (ImageUrlPart imageUrl :: descriptionParts description)
  end.

Definition buildHumanMessage (message : string) (images : list ImageInput) : Async BaseMessage :=
  match images with
  | [] => ret (newMessage (HumanMessage (Text message)))
  | _ :: _ =>
      parts <- mapM imageParts images ;;
      ret (newMessage (HumanMessage (Parts (TextPart message :: concat parts))))
  end.

(** The [catch] clause of [executeAgent]; [rerun] is
    [this.executeWithModel]. *)
Definition executeAgent_catch (rerun : ModelConfig -> Async AIAgentResult)
  (modelConfig : ModelConfig) (error : Thrown) (iterations : nat)
  (toolCalls : list ToolCallRecord) : Async AIAgentResult :=
  match backupModel modelConfig with
  | Some backup =>
      emit (error_event
              ("Primary model " ++ model modelConfig ++ " failed: " ++ messageOrUnknown error
                 ++ ". Retrying with backup model... " ++ backup_model backup)
              true) ;;;
      let backupModelConfig := buildModelConfig modelConfig (Some backup) in
      rerun backupModelConfig
  | None =>
      let errorMessage := messageOrUnknown error in
      ret {| response := "Execution error: " ++ errorMessage;
             success := false;
             iterations := iterations;
             toolCalls := toolCalls;
             error := errorMessage |}
  end.

(** The end of the [try] block, once the graph has returned. *)
Definition finishRun (rerun : ModelConfig -> Async AIAgentResult)
  (modelConfig : ModelConfig) (messages : list BaseMessage) : Async AIAgentResult :=
  let iterations := length messages in
  let toolCalls := accountToolCalls messages [] [] in
  let finalMessage := finalMessageOf messages in
  if reasonIs (finishReasonOf finalMessage) "SAFETY_BLOCKED"
  then executeAgent_catch rerun modelConfig safetyBlockedError iterations toolCalls
  else if reasonIs (finishReasonOf finalMessage) "MAX_TOKENS"
  then executeAgent_catch rerun modelConfig maxTokensError iterations toolCalls
  else
    let formattedResult :=
      formatFinalResponse w (contentOf finalMessage) (model modelConfig) (jsonMode modelConfig) in
    match truthy (formatted_error formattedResult) with
    | Some formatError =>
        ret {| response := formatted_response formattedResult;
               toolCalls := toolCalls;
               iterations := iterations;
               error := formatError;
               success := false |}
    | None =>
        ret {| response := formatted_response formattedResult;
               toolCalls := toolCalls;
               iterations := iterations;
               error := "";
               success := true |}
    end.

Definition executeAgent (rerun : ModelConfig -> Async AIAgentResult)
  (agentTools : list DynamicStructuredTool) (message : string) (images : list ImageInput)
  (maxIterations : nat) (modelConfig : ModelConfig) : Async AIAgentResult :=
  result <- observe (humanMessage <- buildHumanMessage message images ;;
                     invokeGraph modelConfig agentTools humanMessage maxIterations) ;;
  match result with
  | Raised error => executeAgent_catch rerun modelConfig error 0 []
  | Returned messages => finishRun rerun modelConfig messages
  end.

(** [initializeModel] either builds the chat model or throws. *)
Definition initializeModel (modelConfig : ModelConfig) : Async unit :=
  let providerName := providerOf (model modelConfig) in
  match params_credentials (params w) with
  | None => throw (ErrorObj ("No " ++ toUpperCase providerName ++ " credentials provided"))
  | Some credentials =>
      match credentialTypeOf providerName with
      | None => throw (ErrorObj ("Unsupported model provider: " ++ providerName))
      | Some credentialType =>
          match truthy (credentials credentialType) with
          | None => throw (ErrorObj ("No credential found for provider: " ++ providerName))
          | Some _ => ret tt
          end
      end
  end.

Definition registeredTool (toolName : string) : list DynamicStructuredTool :=
  match factory w toolName with
  | Some ToolBubbleClass =>
      if isToolBubble ToolBubbleClass then
        match toolAgent ToolBubbleClass with
        | Some (Returned langGraphTool) => [langGraphTool]
        | _ => []
        end
      else []
  | None => []
  end.

Definition initializeTools (toolConfigs : list string) (customToolConfigs : list CustomTool)
  : Async (list DynamicStructuredTool) :=
  match registerDefaults w with
  | Some e => throw e
  | None =>
      ret (map custom_tool (filter schemaOk customToolConfigs)
             ++ flat_map registeredTool toolConfigs)%list
  end.

(** [executeWithModel]; the fuel bounds the nesting of fallback runs. *)
Fixpoint executeWithModel (fuel : nat) (modelConfig : ModelConfig) : Async AIAgentResult :=
  match fuel with
  | O => starve
  | S fuel' =>
      perform (Execute modelConfig) ;;;
      initializeModel modelConfig ;;;
      agentTools <- initializeTools (params_tools (params w)) (params_customTools (params w)) ;;
      executeAgent (executeWithModel fuel') agentTools
        (params_message (params w)) (params_images (params w))
        (params_maxIterations (params w)) modelConfig
  end.

Definition performAction (fuel : nat) : Async AIAgentResult :=
  tryCatch (executeWithModel fuel (params_model (params w)))
    (fun error =>
       let errorMessage := messageOrUnknown error in
       ret {| response := "Error: " ++ errorMessage;
              success := false;
              toolCalls := [];
              error := errorMessage;
              iterations := 0 |}).

End Engine.

(* ================================================================= *)
(** ** Credentials *)

(** [model.split('/')[0]] *)
Definition firstSegment (modelName : string) : string :=
  match beforeSlash modelName with
  | Some p => p
  | None => modelName
  end.

Definition getCredentialTypeForModel (modelName : string) : Try CredentialType :=
  let provider := firstSegment modelName in
  if String.eqb provider "openai" then Returned OPENAI_CRED
  else if String.eqb provider "google" then Returned GOOGLE_GEMINI_CRED
  else if String.eqb provider "anthropic" then Returned ANTHROPIC_CRED
  else if String.eqb provider "openrouter" then Returned OPENROUTER_CRED
  else Raised (ErrorObj ("Unsupported model provider: " ++ provider)).

Section Credentials.

Variable w : World.

Definition getCredentialType : Try CredentialType :=
  getCredentialTypeForModel (model (params_model (params w))).

Definition chooseCredential : Try (option string) :=
  let provider := firstSegment (model (params_model (params w))) in
  match params_credentials (params w) with
  | None => Raised (ErrorObj ("No " ++ toUpperCase provider ++ " credentials provided"))
  | Some credentials =>
      if String.eqb provider "openai" then Returned (credentials OPENAI_CRED)
      else if String.eqb provider "google" then Returned (credentials GOOGLE_GEMINI_CRED)
      else if String.eqb provider "anthropic" then Returned (credentials ANTHROPIC_CRED)
      else if String.eqb provider "openrouter" then Returned (credentials OPENROUTER_CRED)
      else Raised (ErrorObj ("Unsupported model provider: " ++ provider))
  end.

(** [testCredential]: one call of the model built from [params.model],
    without tools and outside the retry wrapper; the answer counts when
    its content is truthy. *)
Definition testCredential : Async bool :=
  let modelConfig := params_model (params w) in
  initializeModel w modelConfig ;;;
  n <- nextInvocation ;;
  let prompt := [newMessage (HumanMessage (Text "Hello, how are you?"))] in
  perform (Invoke modelConfig [] prompt) ;;;
  match chat w n modelConfig [] prompt with
  | Returned response =>
      match reply_content response with
      | Text "" => ret false
      | _ => ret true
      end
  | Raised error => throw error
  end.

End Credentials.

(** *** The credential validator

    [CredentialValidator.validateCredential] builds the bubble of a
    credential type from [createTestParameters], sets its [credentials]
    parameter to the one credential under validation and calls
    [testCredential].  For the credential types of the chat models that
    bubble is the agent. *)

Record TestParameters : Type := {
  test_message : string;
  test_model : string
}.

(** [createTestParameters], for the credential types of the chat models. *)
Definition createTestParameters (credentialType : CredentialType) : TestParameters :=
  match credentialType with
  | OPENAI_CRED =>
      {| test_message := "Hello, how are you?"; test_model := "openai/gpt-5-mini" |}
  | ANTHROPIC_CRED =>
      {| test_message := "Hello, how are you?"; test_model := "anthropic/claude-sonnet-4-5" |}
  | GOOGLE_GEMINI_CRED =>
      {| test_message := "Hello, how are you?"; test_model := "google/gemini-2.5-flash" |}
  | OPENROUTER_CRED =>
      {| test_message := "Hello, how are you?";
         test_model := "openrouter/anthropic/claude-sonnet-4.5" |}
  end.

Definition CredentialType_eqb (a b : CredentialType) : bool :=
  match a, b with
  | OPENAI_CRED, OPENAI_CRED => true
  | GOOGLE_GEMINI_CRED, GOOGLE_GEMINI_CRED => true
  | ANTHROPIC_CRED, ANTHROPIC_CRED => true
  | OPENROUTER_CRED, OPENROUTER_CRED => true
  | _, _ => false
  end.

(** [{ [credentialType]: credentialValue }] *)
Definition singleCredential (credentialType : CredentialType) (credentialValue : string)
  : CredentialType -> option string :=
  fun t => if CredentialType_eqb t credentialType then Some credentialValue else None.

(* ================================================================= *)
(** ** Pearl: the service that runs the agent as a workflow builder

    [runPearl] checks the environment, then runs the agent up to
    [MAX_RETRIES] times and classifies its answer.  One attempt, from
    [registerDefaults] to [agent.action()], is a collaborator: it throws,
    or it leaves the result of the agent together with the variables
    that the hooks of the attempt assign ([currentCode],
    [applyModelInstructions], [savedValidationResult]).  [JSON.parse]
    followed by [PearlAgentOutputSchema.parse] is a collaborator as well.
    White space is the ASCII white space, and [maxRetries] is a natural
    number when it is given. *)

Record PearlEnv : Type := {
  LLM_PROVIDER : option string;
  GENERIC_OPEN_AI_API_KEY : option string;
  OPENROUTER_API_KEY : option string
}.

Record SavedValidationResult : Type := {
  saved_bubbleParameters : Json;
  saved_inputSchema : Json;
  saved_requiredCredentials : option Json
}.

(** What one attempt leaves behind when it does not throw. *)
Record AgentRun : Type := {
  result_success : bool;
  result_response : option string;
  currentCode : option string;
  applyModelInstructions : list string;
  savedValidationResult : option SavedValidationResult
}.

Record PearlAgentOutput : Type := {
  output_type : string;
  output_message : string
}.

Record PearlResponse : Type := {
  pearl_type : string;
  pearl_message : string;
  pearl_snippet : option string;
  pearl_bubbleParameters : option Json;
  pearl_inputSchema : option Json;
  pearl_requiredCredentials : option Json;
  pearl_success : bool;
  pearl_error : option string
}.

(** [openRouterVariable] is [CREDENTIAL_ENV_MAP[OPENROUTER_CRED]]. *)
Record PearlWorld : Type := {
  env : PearlEnv;
  openRouterVariable : string;
  runAgent : nat -> Try AgentRun;
  parseAgentOutput : string -> Try PearlAgentOutput
}.

Definition isSpace (c : ascii) : bool :=
  let n := nat_of_ascii c in
  ((Nat.leb 9 n && Nat.leb n 13) || Nat.eqb n 32)%bool.

(** [s.trim() === ''] *)
Fixpoint blank (s : string) : bool :=
  match s with
  | EmptyString => true
  | String c r => (isSpace c && blank r)%bool
  end.

(** A response that carries a type, a message and a success flag only. *)
Definition plainResponse (type message : string) (success : bool) (error : option string)
  : PearlResponse :=
  {| pearl_type := type;
     pearl_message := message;
     pearl_snippet := None;
     pearl_bubbleParameters := None;
     pearl_inputSchema := None;
     pearl_requiredCredentials := None;
     pearl_success := success;
     pearl_error := error |}.

(** The outcome of one pass through the loop body. *)
Inductive Step : Type :=
| Return (response : PearlResponse)
| Continue (lastError : option string).

(** The checks on the environment; [None] lets the run begin. *)
Definition missingKey (pw : PearlWorld) : option PearlResponse :=
  let isGenericOpenAI :=
    match LLM_PROVIDER (env pw) with
    | Some p => String.eqb p "generic-openai"
    | None => false
    end in
  if isGenericOpenAI then
    match truthy (GENERIC_OPEN_AI_API_KEY (env pw)) with
    | None =>
        Some (plainResponse "reject"
                "Generic OpenAI API key is required when LLM_PROVIDER is set to 'generic-openai'. Please set GENERIC_OPEN_AI_API_KEY in your .env file."
                false None)
    | Some _ => None
    end
  else
    match truthy (OPENROUTER_API_KEY (env pw)) with
    | None =>
        Some (plainResponse "reject"
                ("OpenRouter API key is required to run Pearl, please make sure the environment variable "
                   ++ openRouterVariable pw
                   ++ " is set, please obtain one https://openrouter.ai/settings/keys to run Pearl.")
                false None)
    | Some _ => None
    end.

Section Pearl.

Variable pw : PearlWorld.
Variable maxRetries : option nat.

(** [maxRetries || 3] *)
Definition MAX_RETRIES : nat :=
  match maxRetries with
  | Some (S n) => S n
  | _ => 3
  end.

(** The body of the loop once [agent.action()] has returned. *)
Definition classify (attempt : nat) (lastError : option string) (run : AgentRun) : Step :=
  let failedWithText :=
    match truthy (result_response run) with
    | Some response => (negb (result_success run) && negb (blank response))%bool
    | None => false
    end in
  let responseText := nullish (truthy (result_response run)) "" in
  if failedWithText then Return (plainResponse "answer" responseText true None)
  else
    match parseAgentOutput pw responseText with
    | Raised error =>
        let lastError :=
          match error with
          | ErrorObj m => m
          | OtherValue _ => "Unknown parsing error"
          end in
        if Nat.ltb attempt MAX_RETRIES then Continue (Some lastError)
        else Return (plainResponse "reject"
                       ("Failed to parse agent response, original response: " ++ responseText)
                       false (Some lastError))
    | Returned agentOutput =>
        if (String.eqb (output_type agentOutput) ""
            || String.eqb (output_message agentOutput) "")%bool
        then
          if Nat.ltb attempt MAX_RETRIES then Continue (Some "Error parsing agent response")
          else Return (plainResponse "reject"
                         ("Error parsing agent response, original response: " ++ responseText)
                         false None)
        else if String.eqb (output_type agentOutput) "code" then
          match applyModelInstructions run, truthy (currentCode run) with
          | _ :: _, Some finalCode =>
              if blank finalCode then Continue lastError
              else
                Return {| pearl_type := "code";
                          pearl_message := output_message agentOutput;
                          pearl_snippet := Some finalCode;
                          pearl_bubbleParameters :=
                            option_map saved_bubbleParameters (savedValidationResult run);
                          pearl_inputSchema :=
                            option_map saved_inputSchema (savedValidationResult run);
                          pearl_requiredCredentials :=
                            match savedValidationResult run with
                            | Some saved => saved_requiredCredentials saved
                            | None => None
                            end;
                          pearl_success := true;
                          pearl_error := None |}
          | _, _ => Continue lastError
          end
        else if String.eqb (output_type agentOutput) "question" then
          Return (plainResponse "question" (output_message agentOutput) true None)
        else if (String.eqb (output_type agentOutput) "answer"
                 || String.eqb (output_type agentOutput) "text")%bool
        then
          if blank (output_message agentOutput) then Continue lastError
          else Return (plainResponse "answer" (output_message agentOutput) true None)
        else Return (plainResponse "reject" (output_message agentOutput) true None)
    end.

(** One pass through the loop body. *)
Definition attemptOnce (attempt : nat) (lastError : option string) : Step :=
  match runAgent pw attempt with
  | Returned run => classify attempt lastError run
  | Raised error =>
      let lastError := messageOrUnknown error in
      if Nat.ltb attempt MAX_RETRIES then Continue (Some lastError)
      else Return (plainResponse "reject" "An error occurred while processing your request"
                     false (Some lastError))
  end.

(** [for (let attempt = ...; attempt <= MAX_RETRIES; attempt++)], with
    the attempts made so far. *)
Fixpoint attemptsFrom (remaining attempt : nat) (lastError : option string)
  (made : list nat) : PearlResponse * list nat :=
  match remaining with
  | O =>
      (plainResponse "reject"
         ("Failed after " ++ showNat MAX_RETRIES ++ " attempts: "
            ++ nullish (truthy lastError) "Unknown error")
         false lastError,
       made)
  | S remaining' =>
      match attemptOnce attempt lastError with
      | Return response => (response, (made ++ [attempt])%list)
      | Continue lastError' =>
          attemptsFrom remaining' (S attempt) lastError' (made ++ [attempt])%list
      end
  end.

(** [runPearl]: the response, and the attempts for which the agent was
    run. *)
Definition runPearl : PearlResponse * list nat :=
  match missingKey pw with
  | Some response => (response, [])
  | None => attemptsFrom MAX_RETRIES 1 None []
  end.

End Pearl.

(* ================================================================= *)
(** ** The vocabulary of the statements *)

(** [extends P i i']: [i'] has the effects of [i] followed by effects
    that all satisfy [P]. *)
Definition extends (P : Effect -> Prop) (i i' : Instance) : Prop :=
  exists es, effects i' = (effects i ++ es)%list /\ Forall P es.

(** [spec P E V m]: [m] only adds effects in [P], does not starve, throws
    only values in [E] and returns only values in [V]. *)
Definition spec {A : Type} (P : Effect -> Prop) (E : Thrown -> Prop) (V : A -> Prop)
  (m : Async A) : Prop :=
  forall i,
    extends P i (snd (m i))
    /\ match fst (m i) with
       | Done a => V a
       | Throws e => E e
       | Starved => False
       end.

Definition anything {A : Type} : A -> Prop := fun _ => True.

(** The effects of a tool batch. *)
Definition toolEffect (e : Effect) : Prop :=
  match e with
  | Emit (tool_start _ _ _) => True
  | Emit (tool_complete _ _ _ _) => True
  | ToolInvoke _ _ => True
  | HookAfter _ _ => True
  | _ => False
  end.

(** An after-hook answered [shouldStop: true] among these effects. *)
Definition stops (es : list Effect) : bool :=
  existsb (fun e => match e with HookAfter _ true => true | _ => false end) es.

(** [batch i r]: [r] is what a step of a tool batch gives from [i]: it
    returned, it added tool effects only, it called no model, and the
    stop flag is raised exactly when an after-hook asked for it. *)
Definition batch {A : Type} (i : Instance) (r : Outcome A * Instance) : Prop :=
  exists a es,
    fst r = Done a
    /\ effects (snd r) = (effects i ++ es)%list
    /\ Forall toolEffect es
    /\ shouldStopAfterTools (snd r) = (shouldStopAfterTools i || stops es)%bool
    /\ invocations (snd r) = invocations i.

Definition notExecute (e : Effect) : Prop :=
  match e with
  | Execute _ => False
  | _ => True
  end.

Fixpoint executions (es : list Effect) : list ModelConfig :=
  match es with
  | [] => []
  | Execute cfg :: r => cfg :: executions r
  | _ :: r => executions r
  end.

(** The calls of the chat model among the effects. *)
Definition modelInvocations (es : list Effect) : nat :=
  length (filter (fun e => match e with Invoke _ _ _ => true | _ => false end) es).


(** The model or the tool factory raised [e]. *)
Definition raisedByWorld (w : World) (e : Thrown) : Prop :=
  (exists n cfg toolNames messages, chat w n cfg toolNames messages = Raised e)
  \/ registerDefaults w = Some e.

(** A thrown value whose message is empty was raised by the world: the
    engine's own errors all carry a text. *)
Definition traced (w : World) (e : Thrown) : Prop :=
  messageOrUnknown e = "" -> raisedByWorld w e.

(** A failed result reports the message of a traced value. *)
Definition failsWith (w : World) (r : AIAgentResult) : Prop :=
  success r = false -> exists e, traced w e /\ error r = messageOrUnknown e.

(** [executeAgent] either ends with a result, or hands over to the run
    of the backup configuration; it never throws. *)
Definition endsOrReruns (w : World) (rerun : ModelConfig -> Async AIAgentResult)
  (cfg : ModelConfig) (i : Instance) (r : Outcome AIAgentResult * Instance) : Prop :=
  (exists a, fst r = Done a /\ extends notExecute i (snd r) /\ failsWith w a)
  \/ (exists b i1,
        backupModel cfg = Some b /\ extends notExecute i i1
        /\ r = rerun (buildModelConfig cfg (Some b)) i1).

(** The configurations a run executes: the given one, and after it at
    most the one derived from its backup. *)
Definition runsAtMostOneBackup (cfg : ModelConfig) (before after : list ModelConfig) : Prop :=
  after = (before ++ [cfg])%list
  \/ exists b, backupModel cfg = Some b
               /\ after = (before ++ [cfg; buildModelConfig cfg (Some b)])%list.





(** [only P m]: whatever [m] does, it only adds effects in [P]. *)
Definition only {A : Type} (P : Effect -> Prop) (m : Async A) : Prop :=
  forall i, extends P i (snd (m i)).

(** Effects whose model calls are in [I], whose tool invocations are in
    [T] and whose streaming events are in [S]. *)
Definition within (I : ModelConfig -> list string -> list BaseMessage -> Prop)
  (T : string -> Prop) (S : StreamingEvent -> Prop) (e : Effect) : Prop :=
  match e with
  | Invoke cfg toolNames messages => I cfg toolNames messages
  | ToolInvoke tool _ => T tool
  | Emit event => S event
  | _ => True
  end.

(** An [llm_start] event that carries the model and the temperature of
    [params.model]. *)
Definition announcesPrimary (w : World) (event : StreamingEvent) : Prop :=
  match event with
  | llm_start modelName t =>
      modelName = model (params_model (params w))
      /\ t = temperature (params_model (params w))
  | _ => True
  end.

(** The tools [initializeTools] hands to the graph. *)
Definition initializedTools (w : World) : list DynamicStructuredTool :=
  (map custom_tool (filter schemaOk (params_customTools (params w)))
     ++ flat_map (registeredTool w) (params_tools (params w)))%list.

Definition systemMessageOf (w : World) : BaseMessage :=
  newMessage (HumanMessage (Text (params_systemPrompt (params w)))).

(** The primary configuration, or the one derived from its backup. *)
Definition configurationOf (w : World) (cfg : ModelConfig) : Prop :=
  cfg = params_model (params w)
  \/ exists b, backupModel (params_model (params w)) = Some b
               /\ cfg = buildModelConfig (params_model (params w)) (Some b).

(** The call names a tool of [agentTools]. *)
Definition resolves (agentTools : list DynamicStructuredTool) (toolCall : ToolCall) : bool :=
  match find (fun t => String.eqb (name t) (call_name toolCall)) agentTools with
  | Some _ => true
  | None => false
  end.

(** The tool message a call gets when no hook is installed. *)
Definition answerOf (agentTools : list DynamicStructuredTool) (toolCall : ToolCall)
  : BaseMessage :=
  match find (fun t => String.eqb (name t) (call_name toolCall)) agentTools with
  | None => notFoundMessage toolCall
  | Some t =>
      match func t (call_args toolCall) with
      | Returned toolOutput =>
          newMessage (ToolMessage (toolContent toolOutput) (call_id toolCall))
      | Raised error => errorMessage error toolCall
      end
  end.




(** An image given by a URL whose fetch throws or is not [ok]. *)
Definition unloadable (w : World) (image : ImageInput) : Prop :=
  match image with
  | Base64Image _ _ _ => False
  | UrlImage url _ =>
      match fetch w url with
      | Returned (FetchOk _ _) => False
      | _ => True
      end
  end.

Definition imageError (e : Thrown) : Prop :=
  exists url reason, e = ErrorObj ("Failed to load image from URL " ++ url ++ ": " ++ reason).

(** A before-hook that hands back the messages and the input it was
    given, as the before-hooks of Pearl and of the workflow generator
    do. *)
Definition handsBack (before : ToolHookBefore) : Prop :=
  forall toolName toolInput messages,
    before toolName toolInput messages
    = Returned (Some {| before_messages := Some messages; before_toolInput := toolInput |}).

(** An after-hook that hands back the messages it was given, with or
    without a request to stop. *)
Definition handsBackAfter (after : ToolHookAfter) : Prop :=
  forall toolName toolInput toolOutput messages,
    exists stop,
      after toolName toolInput toolOutput messages
      = Returned (Some {| after_messages := Some messages; shouldStop := stop |}).

(** The agent run edited the workflow and left [finalCode] behind. *)
Definition editedCode (run : AgentRun) (finalCode : string) : Prop :=
  applyModelInstructions run <> []
  /\ currentCode run = Some finalCode
  /\ blank finalCode = false.

(* ================================================================= *)
(** ** Concrete runs *)

Module Examples.

Definition gemini : ModelConfig :=
  {| model := "google/gemini-2.5-flash";
     temperature := 1;
     maxTokens := 12800;
     maxRetries := 3;
     provider := None;
     jsonMode := false;
     backupModel := None |}.

Definition gpt_backup : BackupModelConfig :=
  {| backup_model := "openai/gpt-5-mini";
     backup_temperature := None;
     backup_maxTokens := Some 4096%Q;
     backup_maxRetries := None |}.

Definition gemini_with_backup : ModelConfig :=
  {| model := "google/gemini-2.5-flash";
     temperature := 1;
     maxTokens := 12800;
     maxRetries := 3;
     provider := None;
     jsonMode := false;
     backupModel := Some gpt_backup |}.

Definition plainText (s : string) : AIReply :=
  {| reply_id := None;
     reply_content := Text s;
     reply_tool_calls := [];
     reply_finishReason := None;
     reply_thinking := None |}.

Definition allCredentials : option (CredentialType -> option string) :=
  Some (fun _ => Some "secret").

(** A formatter that hands plain text through. *)
Definition plainFormat (content : Content) (modelName : string) (json : bool) : FormattedResult :=
  {| formatted_response := match content with Text s => s | Parts _ => "" end;
     formatted_error := None |}.

Definition askParams (question : string) (cfg : ModelConfig) : AIAgentParams :=
  {| params_message := question;
     params_images := [];
     params_systemPrompt := "You are a helpful AI assistant";
     params_model := cfg;
     params_tools := [];
     params_customTools := [];
     params_maxIterations := 10;
     params_credentials := allCredentials;
     beforeToolCallHook := None;
     afterToolCallHook := None;
     streamingCallback := false |}.

(** message = "2+2?", tools = [], maxIterations = 10; the model answers
    in plain text. *)
Definition plain_answer : World :=
  {| params := askParams "2+2?" gemini;
     chat := fun _ _ _ _ => Returned (plainText "4");
     fetch := fun _ => Raised (ErrorObj "offline");
     registerDefaults := None;
     factory := fun _ => None;
     formatFinalResponse := plainFormat;
     random := fun _ => 0%Q |}.


(** The same failing model with a backup configured. *)
Definition failing_with_backup : World :=
  {| params := askParams "2+2?" gemini_with_backup;
     chat := fun _ _ _ _ => Raised (ErrorObj "503 Service Unavailable");
     fetch := fun _ => Raised (ErrorObj "offline");
     registerDefaults := None;
     factory := fun _ => None;
     formatFinalResponse := plainFormat;
     random := fun _ => 0%Q |}.

(** Tools, calls and hooks. *)

Definition echo : DynamicStructuredTool :=
  {| name := "echo"; func := fun args => Returned args |}.

Definition callMissing : ToolCall :=
  {| call_id := "c1"; call_name := "missing"; call_args := JObj [("x", JNum 1)] |}.

Definition callEcho : ToolCall :=
  {| call_id := "c2"; call_name := "echo"; call_args := JObj [("x", JNum 2)] |}.

Definition requestTools (calls : list ToolCall) (reason : option string) : AIReply :=
  {| reply_id := None;
     reply_content := Text "";
     reply_tool_calls := calls;
     reply_finishReason := reason;
     reply_thinking := None |}.

Definition toolParams (cfg : ModelConfig) (before : option ToolHookBefore)
  (after : option ToolHookAfter) : AIAgentParams :=
  {| params_message := "go";
     params_images := [];
     params_systemPrompt := "You are a helpful AI assistant";
     params_model := cfg;
     params_tools := [];
     params_customTools := [{| custom_tool := echo; schemaOk := true |}];
     params_maxIterations := 10;
     params_credentials := allCredentials;
     beforeToolCallHook := before;
     afterToolCallHook := after;
     streamingCallback := true |}.



(** A before-hook that rewrites the arguments. *)
Definition rewriteArgs : ToolHookBefore :=
  fun toolName toolInput messages =>
    Returned (Some {| before_messages := None;
                      before_toolInput := JObj [("x", JNum 3)] |}).



(** The same request without hooks. *)
Definition unresolved_without_hook : World :=
  {| params := toolParams gemini None None;
     chat := fun n _ _ _ =>
               match n with
               | O => Returned (requestTools [callMissing; callEcho] None)
               | S _ => Returned (plainText "done")
               end;
     fetch := fun _ => Raised (ErrorObj "offline");
     registerDefaults := None;
     factory := fun _ => None;
     formatFinalResponse := plainFormat;
     random := fun _ => 0%Q |}.

(** The model asks for [echo]; the before-hook rewrites the arguments. *)
Definition rewriting_hook : World :=
  {| params := toolParams gemini (Some rewriteArgs) None;
     chat := fun n _ _ _ =>
               match n with
               | O => Returned (requestTools [callEcho] None)
               | S _ => Returned (plainText "done")
               end;
     fetch := fun _ => Raised (ErrorObj "offline");
     registerDefaults := None;
     factory := fun _ => None;
     formatFinalResponse := plainFormat;
     random := fun _ => 0%Q |}.



(** The state of the graph when the tool node runs on a request for
    [echo]. *)
Definition echoRequested : list BaseMessage :=
  [ {| id := Some (Uuid 0); kind := HumanMessage (Text "go") |};
    {| id := Some (Uuid 1); kind := AIMessage (Text "") [callEcho] None |} ].

End Examples.

Module Scenarios.
Import Examples.




(** The model asks for [echo] and is refused from then on. *)
Definition fails_after_tool : World :=
  {| params := toolParams gemini None None;
     chat := fun n _ _ _ =>
               match n with
               | O => Returned (requestTools [callEcho] None)
               | S _ => Raised (ErrorObj "503 Service Unavailable")
               end;
     fetch := fun _ => Raised (ErrorObj "offline");
     registerDefaults := None;
     factory := fun _ => None;
     formatFinalResponse := plainFormat;
     random := fun _ => 0%Q |}.

(** An after-hook that throws. *)
Definition failingAfterHook : ToolHookAfter :=
  fun toolName toolInput toolOutput messages => Raised (ErrorObj "hook failed").

Definition after_hook_throws : World :=
  {| params := toolParams gemini None (Some failingAfterHook);
     chat := fun _ _ _ _ => Returned (requestTools [callEcho] None);
     fetch := fun _ => Raised (ErrorObj "offline");
     registerDefaults := None;
     factory := fun _ => None;
     formatFinalResponse := plainFormat;
     random := fun _ => 0%Q |}.

(** The state of the graph when the tool node runs on a request for an
    unregistered tool and for [echo]. *)
Definition twoRequested : list BaseMessage :=
  [ {| id := Some (Uuid 0); kind := HumanMessage (Text "go") |};
    {| id := Some (Uuid 1); kind := AIMessage (Text "") [callMissing; callEcho] None |} ].

(** No credentials are injected; a backup model is configured. *)
Definition without_credentials : World :=
  {| params :=
       {| params_message := "2+2?";
          params_images := [];
          params_systemPrompt := "You are a helpful AI assistant";
          params_model := gemini_with_backup;
          params_tools := [];
          params_customTools := [];
          params_maxIterations := 10;
          params_credentials := None;
          beforeToolCallHook := None;
          afterToolCallHook := None;
          streamingCallback := false |};
     chat := fun _ _ _ _ => Returned (plainText "4");
     fetch := fun _ => Raised (ErrorObj "offline");
     registerDefaults := None;
     factory := fun _ => None;
     formatFinalResponse := plainFormat;
     random := fun _ => 0%Q |}.

(** The factory knows a tool bubble whose agent tool is also called
    [echo]. *)
Definition registeredEcho : DynamicStructuredTool :=
  {| name := "echo"; func := fun _ => Returned JNull |}.

Definition shadowed : World :=
  {| params := toolParams gemini None None;
     chat := fun _ _ _ _ => Returned (plainText "done");
     fetch := fun _ => Raised (ErrorObj "offline");
     registerDefaults := None;
     factory := fun _ =>
                  Some {| isToolBubble := true; toolAgent := Some (Returned registeredEcho) |};
     formatFinalResponse := plainFormat;
     random := fun _ => 0%Q |}.

(** The request carries an image that cannot be fetched. *)
Definition broken_image : World :=
  {| params :=
       {| params_message := "What is on the picture?";
          params_images := [Base64Image "iVBORw0KGgo=" "image/png" None;
                            UrlImage "https://example.com/a.png" (Some "a chart")];
          params_systemPrompt := "You are a helpful AI assistant";
          params_model := gemini_with_backup;
          params_tools := [];
          params_customTools := [];
          params_maxIterations := 10;
          params_credentials := allCredentials;
          beforeToolCallHook := None;
          afterToolCallHook := None;
          streamingCallback := true |};
     chat := fun _ _ _ _ => Returned (plainText "a chart");
     fetch := fun _ => Returned (FetchNotOk "404" "Not Found");
     registerDefaults := None;
     factory := fun _ => None;
     formatFinalResponse := plainFormat;
     random := fun _ => 0%Q |}.

(** The bubble the validator builds for an OpenRouter key. *)
Definition validating (credentialValue : string) : World :=
  {| params :=
       {| params_message := "Hello, how are you?";
          params_images := [];
          params_systemPrompt := "You are a helpful AI assistant";
          params_model :=
            {| model := "openrouter/anthropic/claude-sonnet-4.5";
               temperature := 1;
               maxTokens := 12800;
               maxRetries := 3;
               provider := None;
               jsonMode := false;
               backupModel := None |};
          params_tools := [];
          params_customTools := [];
          params_maxIterations := 10;
          params_credentials := Some (singleCredential OPENROUTER_CRED credentialValue);
          beforeToolCallHook := None;
          afterToolCallHook := None;
          streamingCallback := false |};
     chat := fun _ _ _ _ => Returned (plainText "Fine, thank you.");
     fetch := fun _ => Raised (ErrorObj "offline");
     registerDefaults := None;
     factory := fun _ => None;
     formatFinalResponse := plainFormat;
     random := fun _ => 0%Q |}.

(** Hooks that hand back what they were given; the after-hook asks to
    stop. *)
Definition handBack : ToolHookBefore :=
  fun toolName toolInput messages =>
    Returned (Some {| before_messages := Some messages; before_toolInput := toolInput |}).

Definition handBackAndStop : ToolHookAfter :=
  fun toolName toolInput toolOutput messages =>
    Returned (Some {| after_messages := Some messages; shouldStop := Some true |}).

Definition handing_back : World :=
  {| params := toolParams gemini (Some handBack) (Some handBackAndStop);
     chat := fun _ _ _ _ => Returned (requestTools [callEcho] None);
     fetch := fun _ => Raised (ErrorObj "offline");
     registerDefaults := None;
     factory := fun _ => None;
     formatFinalResponse := plainFormat;
     random := fun _ => 0%Q |}.

(** The model configuration of the workflow generator's agent (Gemini
    with an Anthropic backup) with the two credentials that [runBoba]
    merges when the request brings none; the tools are left out and the
    model is out of service. *)
Definition boba_defaults : World :=
  {| params :=
       {| params_message := "Generate a complete BubbleFlow TypeScript class";
          params_images := [];
          params_systemPrompt := "You are an expert TypeScript developer";
          params_model :=
            {| model := "google/gemini-3-pro-preview";
               temperature := (3 # 10)%Q;
               maxTokens := 12800;
               maxRetries := 3;
               provider := None;
               jsonMode := false;
               backupModel :=
                 Some {| backup_model := "anthropic/claude-sonnet-4-5";
                         backup_temperature := Some (3 # 10)%Q;
                         backup_maxTokens := None;
                         backup_maxRetries := None |} |};
          params_tools := [];
          params_customTools := [];
          params_maxIterations := 10;
          params_credentials :=
            Some (fun t =>
                    match t with
                    | GOOGLE_GEMINI_CRED => Some "google-key"
                    | OPENROUTER_CRED => Some "openrouter-key"
                    | _ => None
                    end);
          beforeToolCallHook := None;
          afterToolCallHook := None;
          streamingCallback := false |};
     chat := fun _ _ _ _ => Raised (ErrorObj "503 Service Unavailable");
     fetch := fun _ => Raised (ErrorObj "offline");
     registerDefaults := None;
     factory := fun _ => None;
     formatFinalResponse := plainFormat;
     random := fun _ => 0%Q |}.

(** Pearl with an OpenRouter key. *)
Definition withOpenRouter : PearlEnv :=
  {| LLM_PROVIDER := None;
     GENERIC_OPEN_AI_API_KEY := None;
     OPENROUTER_API_KEY := Some "sk-or-1" |}.

(** The agent edits the workflow and answers with a code proposal. *)
Definition edited : AgentRun :=
  {| result_success := true;
     result_response :=
       Some (JSON.stringify (JObj [("type", JStr "code"); ("message", JStr "Added a step")]));
     currentCode := Some "export class Flow {}";
     applyModelInstructions := ["I add a step"];
     savedValidationResult := None |}.

Definition pearl_edits : PearlWorld :=
  {| env := withOpenRouter;
     openRouterVariable := "OPENROUTER_API_KEY";
     runAgent := fun _ => Returned edited;
     parseAgentOutput :=
       fun _ => Returned {| output_type := "code"; output_message := "Added a step" |} |}.

(** Every attempt loses its connection. *)
Definition pearl_down : PearlWorld :=
  {| env := withOpenRouter;
     openRouterVariable := "OPENROUTER_API_KEY";
     runAgent := fun _ => Raised (ErrorObj "ECONNRESET");
     parseAgentOutput := fun _ => Raised (ErrorObj "Unexpected end of JSON input") |}.

End Scenarios.

(* ================================================================= *)
(** ** [JSON.parse] inverts [JSON.stringify] *)

Module JSONFacts.
Import JSON.








(** *** Integers *)
















(** *** Values *)





















End JSONFacts.

(* ================================================================= *)
(** ** Fallback derivation *)

(** C6: with a backup [b], the derived configuration takes [model] from
    [b]; [temperature], [maxTokens] and [maxRetries] from [b] where [b]
    sets them and from the primary [p] otherwise; and it has no
    [backupModel]. *)
Theorem buildModelConfig_with_backup (p : ModelConfig) (b : BackupModelConfig) :
  let d := buildModelConfig p (Some b) in
  model d = backup_model b
  /\ temperature d = match backup_temperature b with Some t => t | None => temperature p end
  /\ maxTokens d = match backup_maxTokens b with Some t => t | None => maxTokens p end
  /\ maxRetries d = match backup_maxRetries b with Some n => n | None => maxRetries p end
  /\ backupModel d = None.
Proof. cbv zeta. unfold buildModelConfig, nullish. cbn. repeat split. Qed.

(** C9: a configuration without [backupModel] goes through the
    derivation unchanged. *)
Theorem buildModelConfig_without_backup (c : ModelConfig) :
  backupModel c = None -> buildModelConfig c (backupModel c) = c.
Proof. intros H. rewrite H. reflexivity. Qed.

Lemma buildModelConfig_without_backup_witness :
  backupModel Examples.gemini = None
  /\ buildModelConfig Examples.gemini (backupModel Examples.gemini) = Examples.gemini.
Proof.
  split; [ reflexivity | apply buildModelConfig_without_backup; reflexivity ].
Defined.

(* ================================================================= *)
(** ** Retry backoff *)

Section Backoff.
Open Scope Q_scope.

Lemma delay_pos (n : Z) : 0 < delay n.
Proof.
  unfold delay. apply Q.min_glb_lt.
  - apply Qmult_lt_0_compat; [ reflexivity | apply Qpower_0_lt; reflexivity ].
  - reflexivity.
Qed.

(** C3: the time slept before the next attempt.  With
    [d = min(1000 * 2^(n-1), 32000)] the code sleeps
    [d + d * 0.25 * (random - 0.5)], which for [random] in [[0,1)] lies
    in [[0.875 d, 1.125 d)]: the jitter is an eighth of [d] either way,
    and three quarters of [d] is never slept. *)
Theorem exponentialBackoff_jitter_is_an_eighth (n : Z) (r : Q) :
  (1 <= n)%Z -> 0 <= r -> r < 1 ->
  delay n == Qmin (1000 * 2 ^ (n - 1)) 32000
  /\ (7 # 8) * delay n <= exponentialBackoff n r
  /\ exponentialBackoff n r < (9 # 8) * delay n
  /\ ~ exponentialBackoff n r == (3 # 4) * delay n.
Proof.
  intros _ H0 H1. split; [ reflexivity | ].
  unfold exponentialBackoff. pose proof (delay_pos n) as Hd.
  set (d := delay n) in *. split; [ nra | split; [ nra | intros H; nra ] ].
Qed.

Lemma exponentialBackoff_jitter_is_an_eighth_witness :
  exponentialBackoff 1 0 == 875
  /\ (7 # 8) * delay 1 <= exponentialBackoff 1 0
  /\ ~ exponentialBackoff 1 0 == (3 # 4) * delay 1.
Proof.
  split; [ reflexivity | ].
  destruct (exponentialBackoff_jitter_is_an_eighth 1 0) as (_ & Hlow & _ & Hnot);
    [ lia | apply Qle_refl | reflexivity | ].
  split; assumption.
Defined.

End Backoff.

(* ================================================================= *)
(** ** A program logic for [Async] *)

Lemma extends_refl (P : Effect -> Prop) (i : Instance) : extends P i i.
Proof. exists []. split; [ now rewrite List.app_nil_r | constructor ]. Qed.

Lemma extends_same (P : Effect -> Prop) (i i' : Instance) :
  effects i' = effects i -> extends P i i'.
Proof. intros H. exists []. split; [ now rewrite List.app_nil_r | constructor ]. Qed.

Lemma extends_trans (P : Effect -> Prop) (i j k : Instance) :
  extends P i j -> extends P j k -> extends P i k.
Proof.
  intros (es1 & E1 & F1) (es2 & E2 & F2). exists (es1 ++ es2)%list. split.
  - now rewrite E2, E1, List.app_assoc.
  - apply Forall_app. now split.
Qed.

Lemma extends_weaken (P Q : Effect -> Prop) (i j : Instance) :
  (forall e, P e -> Q e) -> extends P i j -> extends Q i j.
Proof.
  intros H (es & E1 & F1). exists es. split; [ exact E1 | ].
  eapply Forall_impl; eauto.
Qed.

Section Rules.

Context {A B : Type}.
Variable P : Effect -> Prop.
Variable E : Thrown -> Prop.

Lemma spec_ret (V : A -> Prop) (a : A) : V a -> spec P E V (ret a).
Proof. intros H i. split; [ apply extends_refl | exact H ]. Qed.

Lemma spec_throw (V : A -> Prop) (e : Thrown) : E e -> spec P E V (throw e).
Proof. intros H i. split; [ apply extends_refl | exact H ]. Qed.

Lemma spec_bind (V : A -> Prop) (V' : B -> Prop) (m : Async A) (k : A -> Async B) :
  spec P E V m -> (forall a, V a -> spec P E V' (k a)) -> spec P E V' (bind m k).
Proof.
  intros Hm Hk i. unfold bind. specialize (Hm i).
  destruct (m i) as [[a | e | ] i1]; simpl in Hm |- *.
  - destruct Hm as [Hext Hv]. specialize (Hk a Hv i1).
    destruct (k a i1) as [o i2]; simpl in Hk |- *.
    split; [ eapply extends_trans; [ exact Hext | apply Hk ] | apply Hk ].
  - exact Hm.
  - exact Hm.
Qed.

Lemma spec_tryCatch (E' : Thrown -> Prop) (V : A -> Prop) (m : Async A)
  (handler : Thrown -> Async A) :
  spec P E' V m -> (forall e, E' e -> spec P E V (handler e)) ->
  spec P E V (tryCatch m handler).
Proof.
  intros Hm Hh i. unfold tryCatch. specialize (Hm i).
  destruct (m i) as [[a | e | ] i1]; simpl in Hm |- *.
  - exact Hm.
  - destruct Hm as [Hext He]. specialize (Hh e He i1).
    destruct (handler e i1) as [o i2]; simpl in Hh |- *.
    split; [ eapply extends_trans; [ exact Hext | apply Hh ] | apply Hh ].
  - exact Hm.
Qed.

Lemma spec_observe (E' : Thrown -> Prop) (V : A -> Prop) (m : Async A) :
  spec P E' V m ->
  spec P E (fun t => match t with Returned a => V a | Raised e => E' e end) (observe m).
Proof.
  intros Hm i. unfold observe. specialize (Hm i).
  destruct (m i) as [[a | e | ] i1]; simpl in Hm |- *; exact Hm.
Qed.

Lemma spec_weaken (P' : Effect -> Prop) (E' : Thrown -> Prop) (V V' : A -> Prop) (m : Async A) :
  (forall e, P' e -> P e) -> (forall e, E' e -> E e) -> (forall a, V a -> V' a) ->
  spec P' E' V m -> spec P E V' m.
Proof.
  intros HP HE HV Hm i. specialize (Hm i). destruct Hm as [Hext Ho]. split.
  - eapply extends_weaken; eauto.
  - destruct (fst (m i)); auto.
Qed.

End Rules.

Lemma spec_mapM {A B : Type} (P : Effect -> Prop) (E : Thrown -> Prop)
  (f : A -> Async B) (l : list A) :
  (forall a, spec P E anything (f a)) -> spec P E anything (mapM f l).
Proof.
  intros Hf. induction l as [ | a l IH ]; simpl.
  - apply spec_ret; exact I.
  - eapply spec_bind; [ apply Hf | ]. intros b _.
    eapply spec_bind; [ apply IH | ]. intros bs _. apply spec_ret; exact I.
Qed.


Section Primitives.

Variable P : Effect -> Prop.
Variable E : Thrown -> Prop.

Lemma spec_perform (e : Effect) : P e -> spec P E anything (perform e).
Proof.
  intros H i. split; [ | exact I ]. exists [e]. split; [ reflexivity | ].
  constructor; [ exact H | constructor ].
Qed.

Lemma spec_setShouldStopAfterTools (b : bool) : spec P E anything (setShouldStopAfterTools b).
Proof. intros i. split; [ now apply extends_same | exact I ]. Qed.

Lemma spec_getShouldStopAfterTools : spec P E anything getShouldStopAfterTools.
Proof. intros i. split; [ now apply extends_same | exact I ]. Qed.

Lemma spec_v4 : spec P E anything v4.
Proof. intros i. split; [ now apply extends_same | exact I ]. Qed.

Lemma spec_Math_random (random : nat -> Q) : spec P E anything (Math_random random).
Proof. intros i. split; [ now apply extends_same | exact I ]. Qed.

Lemma spec_nextInvocation : spec P E anything nextInvocation.
Proof. intros i. split; [ now apply extends_same | exact I ]. Qed.

Lemma spec_emit (w : World) (e : StreamingEvent) : P (Emit e) -> spec P E anything (emit w e).
Proof.
  intros H. unfold emit. destruct (streamingCallback (params w)).
  - now apply spec_perform.
  - apply spec_ret; exact I.
Qed.

Lemma spec_assignId (m : BaseMessage) : spec P E anything (assignId m).
Proof.
  unfold assignId. destruct (id m).
  - apply spec_ret; exact I.
  - eapply spec_bind; [ apply spec_v4 | ]. intros u _. apply spec_ret; exact I.
Qed.

Lemma spec_messagesStateReducer (left right : list BaseMessage) :
  spec P E anything (messagesStateReducer left right).
Proof.
  unfold messagesStateReducer.
  eapply spec_bind; [ apply spec_mapM, spec_assignId | ]. intros l _.
  eapply spec_bind; [ apply spec_mapM, spec_assignId | ]. intros r _.
  apply spec_ret; exact I.
Qed.

End Primitives.

(* ================================================================= *)
(** ** The tool node *)

Lemma stops_app (es1 es2 : list Effect) : stops (es1 ++ es2) = (stops es1 || stops es2)%bool.
Proof. apply existsb_app. Qed.

Lemma runToolCall_batch (w : World) (tools : list DynamicStructuredTool)
  (lastId : option MessageId) (k : nat) (toolCall : ToolCall) (b : Batch) (i : Instance) :
  batch i (runToolCall w tools lastId k toolCall b i).
Proof.
  unfold runToolCall, batch.
  destruct (find _ tools) as [ t | ].
  2:{ exists {| toolMessages := toolMessages b ++ [notFoundMessage toolCall];
               currentMessages := currentMessages b;
               assigned_calls := assigned_calls b |}, [].
      cbn. rewrite List.app_nil_r, orb_false_r. repeat split. constructor. }
  destruct (callBefore w _ _ _) as [ hb | e ].
  2:{ exists (caught e toolCall b), [].
      cbn. rewrite List.app_nil_r, orb_false_r. repeat split. constructor. }
  unfold bind, emit, perform, ret, setShouldStopAfterTools.
  destruct (streamingCallback (params w)); cbn;
    (destruct (func t _) as [ out | e ]; cbn;
     [ destruct (callAfter w _ _ _ _) as [ ha | e ]; cbn;
       [ destruct (requestsStop ha); cbn | ] | ]);
    eexists; eexists; cbn; rewrite <- ?List.app_assoc; cbn;
    (split; [ reflexivity | split; [ reflexivity | split; [ repeat constructor | ] ] ]);
    cbn; rewrite ?orb_false_r, ?orb_true_r; split; reflexivity.
Qed.

Lemma forEachToolCall_batch (w : World) (tools : list DynamicStructuredTool)
  (lastId : option MessageId) (toolCalls : list ToolCall) :
  forall (k : nat) (b : Batch) (i : Instance),
  batch i (forEachToolCall w tools lastId k toolCalls b i).
Proof.
  induction toolCalls as [ | c rest IH ]; intros k b i.
  - exists b, []. cbn. rewrite List.app_nil_r, orb_false_r. repeat split. constructor.
  - cbn [forEachToolCall]. unfold bind.
    destruct (runToolCall_batch w tools lastId k c b i) as (b1 & es1 & H1 & H2 & H3 & H4 & H5).
    destruct (runToolCall w tools lastId k c b i) as [o1 i1]. cbn in H1, H2, H3, H4, H5. subst o1.
    destruct (IH (S k) b1 i1) as (b2 & es2 & G1 & G2 & G3 & G4 & G5).
    exists b2, (es1 ++ es2)%list. repeat split.
    + exact G1.
    + now rewrite G2, H2, List.app_assoc.
    + apply Forall_app. now split.
    + now rewrite G4, H4, stops_app, orb_assoc.
    + now rewrite G5.
Qed.

Lemma last_map_Some {A : Type} (l : list A) :
  l <> [] -> exists a, last (map Some l) None = Some a.
Proof.
  induction l as [ | x l IH ]; [ congruence | ]. intros _.
  destruct l as [ | y l ]; [ now exists x | ].
  destruct IH as [a Ha]; [ discriminate | ]. exists a. exact Ha.
Qed.

(** The tool node on a state with messages: it returns, and on return
    the stop flag tells whether an after-hook asked to stop during this
    batch. *)
Lemma executeToolsWithHooks_batch (w : World) (messages : list BaseMessage)
  (tools : list DynamicStructuredTool) (i : Instance) :
  messages <> [] ->
  exists result es,
    fst (executeToolsWithHooks w messages tools i) = Done result
    /\ effects (snd (executeToolsWithHooks w messages tools i)) = (effects i ++ es)%list
    /\ Forall toolEffect es
    /\ shouldStopAfterTools (snd (executeToolsWithHooks w messages tools i)) = stops es
    /\ invocations (snd (executeToolsWithHooks w messages tools i)) = invocations i.
Proof.
  intros Hne. unfold executeToolsWithHooks.
  destruct (last_map_Some messages Hne) as [lastMessage ->].
  unfold bind, setShouldStopAfterTools.
  match goal with
  | |- context [forEachToolCall w tools ?l ?k ?c ?b ?i0] =>
      destruct (forEachToolCall_batch w tools l c k b i0) as (b' & es & H1 & H2 & H3 & H4 & H5);
      destruct (forEachToolCall w tools l k c b i0) as [o i1]
  end.
  cbn in H1, H2, H3, H4, H5. subst o.
  destruct (negb _); eexists; exists es; cbn; repeat split; assumption.
Qed.

(* ================================================================= *)
(** ** What a run can throw, and where it executes a model *)

Lemma toolEffect_notExecute (e : Effect) : toolEffect e -> notExecute e.
Proof. destruct e as [ [] | | | | | ]; simpl; tauto. Qed.

Lemma executions_app (es1 es2 : list Effect) :
  executions (es1 ++ es2) = (executions es1 ++ executions es2)%list.
Proof.
  induction es1 as [ | e es1 IH ]; [ reflexivity | ].
  destruct e; simpl; rewrite IH; reflexivity.
Qed.

Lemma executions_notExecute (es : list Effect) : Forall notExecute es -> executions es = [].
Proof.
  induction 1 as [ | e es He _ IH ]; [ reflexivity | ].
  destruct e; simpl in *; tauto.
Qed.

Lemma extends_executions (i i' : Instance) :
  extends notExecute i i' -> executions (effects i') = executions (effects i).
Proof.
  intros (es & -> & H). now rewrite executions_app, (executions_notExecute es H), List.app_nil_r.
Qed.

Section Run.

Variable w : World.

Lemma traced_text (m : string) : m <> "" -> traced w (ErrorObj m).
Proof. intros H H'. simpl in H'. contradiction. Qed.

Lemma traced_prefixed (c : ascii) (m : string) : traced w (ErrorObj (String c m)).
Proof. apply traced_text. discriminate. Qed.

Lemma traced_chat (n : nat) (cfg : ModelConfig) (toolNames : list string)
  (messages : list BaseMessage) (e : Thrown) :
  chat w n cfg toolNames messages = Raised e -> traced w e.
Proof. intros H _. left. now exists n, cfg, toolNames, messages. Qed.

Ltac spec_step :=
  first
    [ apply spec_ret; exact I
    | apply spec_perform; exact I
    | apply spec_emit; exact I
    | apply spec_setShouldStopAfterTools
    | apply spec_getShouldStopAfterTools
    | apply spec_nextInvocation
    | apply spec_Math_random
    | apply spec_messagesStateReducer
    | apply spec_throw; solve [ apply traced_prefixed | assumption ]
    | eapply spec_bind; [ | intros ? _ ] ].

Lemma spec_onFailedAttempt (error : Thrown) (attemptNumber retriesLeft : nat) :
  spec notExecute (traced w) anything (onFailedAttempt w error attemptNumber retriesLeft).
Proof.
  unfold onFailedAttempt, sleepBackoff.
  destruct (Nat.ltb 0 retriesLeft); repeat spec_step.
Qed.

Lemma spec_invokeWithRetry (retriesLeft : nat) :
  forall (attemptNumber : nat) (cfg : ModelConfig) (toolNames : list string)
         (allMessages : list BaseMessage),
  spec notExecute (traced w) anything
    (invokeWithRetry w retriesLeft attemptNumber cfg toolNames allMessages).
Proof.
  induction retriesLeft as [ | k IH ]; intros attemptNumber cfg toolNames allMessages;
    cbn [invokeWithRetry];
    (eapply spec_bind; [ apply spec_nextInvocation | intros n _ ]);
    (eapply spec_bind; [ apply spec_perform; exact I | intros _ _ ]);
    (eapply spec_bind; [ apply spec_emit; exact I | intros _ _ ]);
    destruct (chat w n cfg toolNames allMessages) as [ reply | e ] eqn:Hchat.
  - eapply spec_bind with (V := anything).
    + destruct (reply_thinking reply) as [ t | ]; [ destruct (String.eqb t "") | ];
        repeat spec_step.
    + intros _ _. repeat spec_step.
  - eapply spec_bind; [ apply spec_onFailedAttempt | intros _ _ ].
    apply spec_throw. eapply traced_chat; eauto.
  - eapply spec_bind with (V := anything).
    + destruct (reply_thinking reply) as [ t | ]; [ destruct (String.eqb t "") | ];
        repeat spec_step.
    + intros _ _. repeat spec_step.
  - eapply spec_bind; [ apply spec_onFailedAttempt | intros _ _ ]. apply IH.
Qed.

Lemma spec_agentNode (cfg : ModelConfig) (agentTools : list DynamicStructuredTool)
  (messages : list BaseMessage) :
  spec notExecute (traced w) anything (agentNode w cfg agentTools messages).
Proof.
  unfold agentNode. eapply spec_tryCatch with (E' := (traced w)).
  - eapply spec_bind; [ apply spec_invokeWithRetry | intros r _ ]. apply spec_ret; exact I.
  - intros e He. destruct (isCandidateContentError _).
    + apply spec_ret; exact I.
    + now apply spec_throw.
Qed.

Lemma spec_executeToolsWithHooks (messages : list BaseMessage)
  (agentTools : list DynamicStructuredTool) :
  spec notExecute (traced w) anything (executeToolsWithHooks w messages agentTools).
Proof.
  intros i. destruct messages as [ | m ms ].
  - cbn. split; [ apply extends_refl | apply traced_prefixed ].
  - destruct (executeToolsWithHooks_batch w (m :: ms) agentTools i) as
      (r & es & H1 & H2 & H3 & _); [ discriminate | ].
    rewrite H1. split; [ | exact I ]. exists es. split; [ exact H2 | ].
    eapply Forall_impl; [ apply toolEffect_notExecute | exact H3 ].
Qed.

Lemma spec_shouldContinue (messages : list BaseMessage) :
  spec notExecute (traced w) anything (shouldContinue messages).
Proof.
  unfold shouldContinue. destruct (last _ _) as [ m | ].
  - destruct (tool_calls_of m); apply spec_ret; exact I.
  - apply spec_throw, traced_prefixed.
Qed.

Lemma spec_runGraph (cfg : ModelConfig) (agentTools : list DynamicStructuredTool)
  (recursionLimit : nat) :
  forall (node : Node) (messages : list BaseMessage),
  spec notExecute (traced w) anything (runGraph w cfg agentTools recursionLimit node messages).
Proof.
  induction recursionLimit as [ | limit IH ]; intros node messages.
  - destruct node; cbn; try (apply spec_throw, traced_prefixed). apply spec_ret; exact I.
  - destruct node; cbn [runGraph].
    + eapply spec_bind; [ apply spec_agentNode | intros r _ ].
      eapply spec_bind; [ apply spec_messagesStateReducer | intros ms _ ].
      eapply spec_bind with (V := anything); [ | intros next _; apply IH ].
      destruct agentTools; [ apply spec_ret; exact I | apply spec_shouldContinue ].
    + eapply spec_bind; [ apply spec_executeToolsWithHooks | intros r _ ].
      eapply spec_bind; [ apply spec_messagesStateReducer | intros ms _ ].
      eapply spec_bind with (V := anything); [ | intros next _; apply IH ].
      unfold shouldContinueAfterTools.
      eapply spec_bind; [ apply spec_getShouldStopAfterTools | intros stop _ ].
      destruct stop; apply spec_ret; exact I.
    + apply spec_ret; exact I.
Qed.

Lemma spec_imageParts (image : ImageInput) :
  spec notExecute (traced w) anything (imageParts w image).
Proof.
  destruct image as [ data mimeType description | url description ]; cbn [imageParts].
  - apply spec_ret; exact I.
  - eapply spec_bind with (V := anything); [ | intros u _; apply spec_ret; exact I ].
    destruct (fetch w url) as [ [ contentType base64Data | status statusText ] | e ].
    + apply spec_ret; exact I.
    + apply spec_throw, traced_prefixed.
    + apply spec_throw, traced_prefixed.
Qed.

Lemma spec_buildHumanMessage (message : string) (images : list ImageInput) :
  spec notExecute (traced w) anything (buildHumanMessage w message images).
Proof.
  unfold buildHumanMessage. destruct images as [ | image images ].
  - apply spec_ret; exact I.
  - eapply spec_bind; [ apply spec_mapM, spec_imageParts | intros parts _ ].
    apply spec_ret; exact I.
Qed.

Lemma spec_invokeGraph (cfg : ModelConfig) (agentTools : list DynamicStructuredTool)
  (humanMessage : BaseMessage) (recursionLimit : nat) :
  spec notExecute (traced w) anything (invokeGraph w cfg agentTools humanMessage recursionLimit).
Proof.
  unfold invokeGraph.
  eapply spec_bind; [ apply spec_messagesStateReducer | intros ms _ ]. apply spec_runGraph.
Qed.

Lemma spec_initializeModel (cfg : ModelConfig) :
  spec notExecute (traced w) anything (initializeModel w cfg).
Proof.
  unfold initializeModel. destruct (params_credentials (params w)) as [ credentials | ].
  - destruct (credentialTypeOf _) as [ credentialType | ].
    + destruct (truthy _); [ apply spec_ret; exact I | apply spec_throw, traced_prefixed ].
    + apply spec_throw, traced_prefixed.
  - apply spec_throw, traced_prefixed.
Qed.

Lemma spec_initializeTools (toolConfigs : list string) (customToolConfigs : list CustomTool) :
  spec notExecute (traced w) anything (initializeTools w toolConfigs customToolConfigs).
Proof.
  unfold initializeTools. destruct (registerDefaults w) as [ e | ] eqn:H.
  - apply spec_throw. intros _. now right.
  - apply spec_ret; exact I.
Qed.

Lemma truthy_text (s : option string) (x : string) : truthy s = Some x -> x <> "".
Proof.
  destruct s as [ y | ]; simpl; [ | discriminate ].
  destruct (String.eqb y "") eqn:H; [ discriminate | ].
  intros [= <-]. now apply String.eqb_neq.
Qed.

Lemma endsOrReruns_after (rerun : ModelConfig -> Async AIAgentResult) (cfg : ModelConfig)
  (i i1 : Instance) (r : Outcome AIAgentResult * Instance) :
  extends notExecute i i1 -> endsOrReruns w rerun cfg i1 r -> endsOrReruns w rerun cfg i r.
Proof.
  intros H [ (a & H1 & H2 & H3) | (b & i2 & H1 & H2 & H3) ].
  - left. exists a. repeat split; [ exact H1 | | exact H3 ]. eapply extends_trans; eauto.
  - right. exists b, i2. repeat split; [ exact H1 | | exact H3 ]. eapply extends_trans; eauto.
Qed.

Lemma executeAgent_catch_shape (rerun : ModelConfig -> Async AIAgentResult)
  (cfg : ModelConfig) (e : Thrown) (its : nat) (tc : list ToolCallRecord) (i : Instance) :
  traced w e -> endsOrReruns w rerun cfg i (executeAgent_catch w rerun cfg e its tc i).
Proof.
  intros He. unfold executeAgent_catch. destruct (backupModel cfg) as [ b | ] eqn:Hb.
  - right. exists b. unfold bind, emit. destruct (streamingCallback (params w)); cbn.
    + eexists. split; [ exact Hb | split; [ | reflexivity ] ].
      eexists. split; [ reflexivity | repeat constructor ].
    + exists i. split; [ exact Hb | split; [ apply extends_refl | reflexivity ] ].
  - left. eexists. cbn. split; [ reflexivity | split; [ apply extends_refl | ] ].
    intros _. exists e. split; [ exact He | reflexivity ].
Qed.

Lemma finishRun_shape (rerun : ModelConfig -> Async AIAgentResult) (cfg : ModelConfig)
  (messages : list BaseMessage) (i : Instance) :
  endsOrReruns w rerun cfg i (finishRun w rerun cfg messages i).
Proof.
  unfold finishRun.
  destruct (reasonIs _ "SAFETY_BLOCKED"); [ apply executeAgent_catch_shape, traced_prefixed | ].
  destruct (reasonIs _ "MAX_TOKENS"); [ apply executeAgent_catch_shape, traced_prefixed | ].
  destruct (truthy _) as [ formatError | ] eqn:H; left; eexists; cbn;
    (split; [ reflexivity | split; [ apply extends_refl | ] ]).
  - intros _. exists (ErrorObj formatError). split; [ | reflexivity ].
    apply traced_text. eapply truthy_text; eauto.
  - intros H'. discriminate H'.
Qed.

Lemma executeAgent_shape (rerun : ModelConfig -> Async AIAgentResult)
  (agentTools : list DynamicStructuredTool) (message : string) (images : list ImageInput)
  (maxIterations : nat) (cfg : ModelConfig) (i : Instance) :
  endsOrReruns w rerun cfg i
    (executeAgent w rerun agentTools message images maxIterations cfg i).
Proof.
  unfold executeAgent, bind at 1.
  match goal with
  | |- context [observe ?m i] =>
      assert (spec notExecute (traced w) anything m) as Hm
        by (eapply spec_bind; [ apply spec_buildHumanMessage | intros h _; apply spec_invokeGraph ]);
      pose proof (spec_observe notExecute (fun _ => False) (traced w) anything m Hm i) as Ho;
      destruct (observe m i) as [[ t | e | ] i1]
  end; cbn in Ho; destruct Ho as [Hext Ho]; try contradiction.
  apply (endsOrReruns_after _ _ _ i1); [ exact Hext | ].
  destruct t as [ messages | e ].
  - apply finishRun_shape.
  - now apply executeAgent_catch_shape.
Qed.

(** [executeWithModel] with fuel: it first records the configuration it
    runs; then it ends (with a result or a traced w error), or the backup
    run takes over with one unit of fuel less. *)
Lemma executeWithModel_shape (fuel : nat) (cfg : ModelConfig) (i : Instance) :
  exists i0,
    effects i0 = (effects i ++ [Execute cfg])%list
    /\ ((extends notExecute i0 (snd (executeWithModel w (S fuel) cfg i))
         /\ match fst (executeWithModel w (S fuel) cfg i) with
            | Done a => failsWith w a
            | Throws e => traced w e
            | Starved => False
            end)
        \/ (exists b i1,
              backupModel cfg = Some b /\ extends notExecute i0 i1
              /\ executeWithModel w (S fuel) cfg i
                 = executeWithModel w fuel (buildModelConfig cfg (Some b)) i1)).
Proof.
  set (i0 := {| shouldStopAfterTools := shouldStopAfterTools i;
                effects := effects i ++ [Execute cfg];
                uuids := uuids i; draws := draws i; invocations := invocations i |}).
  set (r := executeWithModel w (S fuel) cfg i).
  assert (r = (initializeModel w cfg ;;;
               agentTools <- initializeTools w (params_tools (params w))
                               (params_customTools (params w)) ;;
               executeAgent w (executeWithModel w fuel) agentTools
                 (params_message (params w)) (params_images (params w))
                 (params_maxIterations (params w)) cfg) i0) as Hr by reflexivity.
  clearbody r. exists i0. split; [ reflexivity | ].
  unfold bind at 1 in Hr.
  pose proof (spec_initializeModel cfg i0) as [Hext1 Ho1].
  destruct (initializeModel w cfg i0) as [[ [] | e | ] i1]; cbn in Hext1, Ho1; try contradiction.
  2:{ subst r. left. cbn. split; assumption. }
  unfold bind at 1 in Hr.
  pose proof (spec_initializeTools (params_tools (params w)) (params_customTools (params w)) i1)
    as [Hext2 Ho2].
  destruct (initializeTools w _ _ i1) as [[ agentTools | e | ] i2]; cbn in Hext2, Ho2;
    try contradiction.
  2:{ subst r. left. cbn. split; [ eapply extends_trans; eauto | assumption ]. }
  assert (extends notExecute i0 i2) as Hext by (eapply extends_trans; eauto).
  subst r.
  destruct (executeAgent_shape (executeWithModel w fuel) agentTools
              (params_message (params w)) (params_images (params w))
              (params_maxIterations (params w)) cfg i2)
    as [ (a & H1 & H2 & H3) | (b & i3 & H1 & H2 & H3) ].
  - left. rewrite H1. split; [ eapply extends_trans; eauto | exact H3 ].
  - right. exists b, i3. split; [ exact H1 | split; [ eapply extends_trans; eauto | exact H3 ] ].
Qed.

End Run.

(* ================================================================= *)
(** ** Fallback and the outer boundary *)

Section Boundary.

Variable w : World.

Lemma executeWithModel_without_backup (fuel : nat) (cfg : ModelConfig) (i : Instance) :
  backupModel cfg = None ->
  executions (effects (snd (executeWithModel w (S fuel) cfg i)))
  = (executions (effects i) ++ [cfg])%list
  /\ match fst (executeWithModel w (S fuel) cfg i) with
     | Done a => failsWith w a
     | Throws e => traced w e
     | Starved => False
     end.
Proof.
  intros Hnone.
  destruct (executeWithModel_shape w fuel cfg i) as
    (i0 & H0 & [ [Hext Ho] | (b & i1 & Hb & _) ]); [ | congruence ].
  split; [ | exact Ho ].
  now rewrite (extends_executions _ _ Hext), H0, executions_app.
Qed.

Lemma buildModelConfig_clears_backup (cfg : ModelConfig) (b : BackupModelConfig) :
  backupModel (buildModelConfig cfg (Some b)) = None.
Proof. reflexivity. Qed.

Lemma executeWithModel_runs (fuel : nat) (cfg : ModelConfig) (i : Instance) :
  runsAtMostOneBackup cfg (executions (effects i))
    (executions (effects (snd (executeWithModel w (S (S fuel)) cfg i))))
  /\ match fst (executeWithModel w (S (S fuel)) cfg i) with
     | Done a => failsWith w a
     | Throws e => traced w e
     | Starved => False
     end.
Proof.
  destruct (executeWithModel_shape w (S fuel) cfg i) as
    (i0 & H0 & [ [Hext Ho] | (b & i1 & Hb & Hext & Hrun) ]).
  - split; [ left | exact Ho ].
    now rewrite (extends_executions _ _ Hext), H0, executions_app.
  - rewrite Hrun.
    destruct (executeWithModel_without_backup fuel (buildModelConfig cfg (Some b)) i1
                (buildModelConfig_clears_backup cfg b)) as [He Ho].
    split; [ right; exists b; split; [ exact Hb | ] | exact Ho ].
    rewrite He, (extends_executions _ _ Hext), H0, executions_app, <- List.app_assoc.
    reflexivity.
Qed.

Lemma performAction_shape (fuel : nat) (i : Instance) :
  2 <= fuel ->
  exists r i',
    performAction w fuel i = (Done r, i')
    /\ runsAtMostOneBackup (params_model (params w))
         (executions (effects i)) (executions (effects i'))
    /\ failsWith w r.
Proof.
  intros Hfuel. destruct fuel as [ | [ | fuel ] ]; try lia.
  unfold performAction, tryCatch.
  destruct (executeWithModel_runs fuel (params_model (params w)) i) as [Hruns Ho].
  destruct (executeWithModel w (S (S fuel)) (params_model (params w)) i) as [[ a | e | ] i'];
    cbn in Hruns, Ho; try contradiction.
  - exists a, i'. repeat split; assumption.
  - eexists; exists i'. cbn. repeat split; [ assumption | ].
    intros _. exists e. split; [ exact Ho | reflexivity ].
Qed.

(** C7: a [BackupModelConfig] is its four fields, none of which is a
    further backup; a run executes the primary configuration and, after
    it, at most once the configuration derived from its backup, whose
    [backupModel] is unset.  Two levels of [executeWithModel] are
    therefore enough for every run. *)
Theorem fallback_is_one_level_deep (fuel : nat) (i : Instance) :
  2 <= fuel ->
  let primary := params_model (params w) in
  (forall b : BackupModelConfig,
     b = {| backup_model := backup_model b;
            backup_temperature := backup_temperature b;
            backup_maxTokens := backup_maxTokens b;
            backup_maxRetries := backup_maxRetries b |})
  /\ exists r i',
       performAction w fuel i = (Done r, i')
       /\ (executions (effects i') = (executions (effects i) ++ [primary])%list
           \/ exists b,
                backupModel primary = Some b
                /\ executions (effects i')
                   = (executions (effects i) ++ [primary; buildModelConfig primary (Some b)])%list
                /\ backupModel (buildModelConfig primary (Some b)) = None).
Proof.
  intros Hfuel primary. split; [ intros []; reflexivity | ].
  destruct (performAction_shape fuel i Hfuel) as (r & i' & Hrun & Hruns & _).
  exists r, i'. split; [ exact Hrun | ].
  destruct Hruns as [ H | (b & Hb & H) ]; [ now left | right ].
  exists b. repeat split; assumption.
Qed.


End Boundary.

Lemma fallback_is_one_level_deep_witness :
  2 <= 2
  /\ exists r i',
       performAction Examples.failing_with_backup 2 newInstance = (Done r, i')
       /\ (executions (effects i') = [Examples.gemini_with_backup]
           \/ exists b,
                backupModel Examples.gemini_with_backup = Some b
                /\ executions (effects i')
                   = [Examples.gemini_with_backup;
                      buildModelConfig Examples.gemini_with_backup (Some b)]
                /\ backupModel (buildModelConfig Examples.gemini_with_backup (Some b)) = None).
Proof.
  split; [ lia | ].
  apply (fallback_is_one_level_deep Examples.failing_with_backup 2 newInstance). lia.
Defined.



(* ================================================================= *)
(** ** A run without tools *)

(** C4: with no tools, no images and a model that answers at its first
    call without a terminal finish reason, the run makes exactly one
    model invocation and returns [success = true] with no tool calls;
    [iterations] is the length of the final history, 2: the human
    message and the answer. *)
Theorem plain_answer_run (w : World) (fuel : nat) (reply : AIReply) :
  let cfg := params_model (params w) in
  let systemMessage := newMessage (HumanMessage (Text (params_systemPrompt (params w)))) in
  let humanMessage :=
    {| id := Some (Uuid 0); kind := HumanMessage (Text (params_message (params w))) |} in
  1 <= fuel -> 1 <= params_maxIterations (params w) ->
  params_tools (params w) = [] -> params_customTools (params w) = [] ->
  params_images (params w) = [] ->
  registerDefaults w = None ->
  (forall i, initializeModel w cfg i = (Done tt, i)) ->
  chat w 0 cfg [] [systemMessage; humanMessage] = Returned reply ->
  reasonIs (reply_finishReason reply) "SAFETY_BLOCKED" = false ->
  reasonIs (reply_finishReason reply) "MAX_TOKENS" = false ->
  truthy (formatted_error
            (formatFinalResponse w (reply_content reply) (model cfg) (jsonMode cfg))) = None ->
  exists r i',
    performAction w fuel newInstance = (Done r, i')
    /\ modelInvocations (effects i') = 1
    /\ toolCalls r = [] /\ iterations r = 2 /\ success r = true.
Proof.
  intros cfg systemMessage humanMessage Hfuel Hlimit Htools Hcustom Himages Hreg Hinit
    Hchat Hsafe Hmax Hfmt.
  destruct fuel as [ | f ]; [ lia | ].
  destruct (params_maxIterations (params w)) as [ | limit ] eqn:Hl; [ lia | ].
  unfold performAction, tryCatch. cbn [executeWithModel].
  unfold bind at 1. cbn [perform].
  unfold bind at 1. fold cfg. rewrite Hinit.
  unfold bind at 1. unfold initializeTools.
  rewrite Hreg, Htools, Hcustom. cbn [ret filter map flat_map app].
  unfold executeAgent. rewrite Himages, Hl. unfold bind at 1, observe.
  unfold bind at 1. cbn [buildHumanMessage ret].
  unfold invokeGraph, bind at 1. cbn.
  unfold bind at 1. unfold agentNode, tryCatch. unfold bind at 1.
  assert (forall k i, invocations i = 0 ->
            exists i1,
              invokeWithRetry w k 1 cfg [] [systemMessage; humanMessage] i = (Done reply, i1)
              /\ uuids i1 = uuids i
              /\ modelInvocations (effects i1) = S (modelInvocations (effects i))) as Hinvoke.
  { intros k i Hi. destruct k; cbn [invokeWithRetry];
      unfold bind, nextInvocation, perform, emit, ret; rewrite Hi, Hchat;
      destruct (streamingCallback (params w)); cbn;
      destruct (reply_thinking reply) as [ t | ]; try destruct (String.eqb t ""); cbn;
      eexists; (split; [ reflexivity | split; [ reflexivity | ] ]); cbn;
      unfold modelInvocations; rewrite ?filter_app, ?length_app; cbn; lia. }
  cbn [map].
  match goal with
  | |- context [invokeWithRetry w ?k 1 cfg [] ?ms ?i0] =>
      destruct (Hinvoke k i0 eq_refl) as (i1 & Hrun & Hu & Hm);
      change ms with [systemMessage; humanMessage]; rewrite Hrun
  end.
  cbn in Hu, Hm. cbn [ret].
  unfold messagesStateReducer, bind, messageOfReply. cbn [mapM assignId id ret bind].
  assert (forall ms i, runGraph w cfg [] limit __end__ ms i = (Done ms, i)) as Hend
    by (intros; destruct limit; reflexivity).
  unfold finishRun, finalMessageOf, finishReasonOf, contentOf.
  destruct (reply_id reply) as [ rid | ]; unfold bind, ret, v4; cbn; rewrite ?Hu; cbn;
    rewrite Hend; cbn; rewrite Hsafe, Hmax; fold cfg; rewrite Hfmt;
    eexists; eexists; (split; [ reflexivity | ]); cbn; repeat split; exact Hm.
Qed.

Lemma plain_answer_run_witness :
  exists r i',
    performAction Examples.plain_answer 2 newInstance = (Done r, i')
    /\ modelInvocations (effects i') = 1
    /\ toolCalls r = [] /\ iterations r = 2 /\ success r = true.
Proof.
  apply (plain_answer_run Examples.plain_answer 2 (Examples.plainText "4"));
    try reflexivity; try (cbn; lia).
Defined.

(** C4, as stated, fails on its own scenario: for message "2+2?",
    tools = [] and maxIterations = 10 the result does not have
    [iterations = 1]. *)
Lemma plain_answer_iterations_counterexample :
  ~ (exists r i',
       performAction Examples.plain_answer 2 newInstance = (Done r, i')
       /\ modelInvocations (effects i') = 1
       /\ toolCalls r = [] /\ iterations r = 1 /\ success r = true).
Proof.
  intros (r & i' & Hrun & _ & _ & Hit & _).
  vm_compute in Hrun. injection Hrun as <- _. discriminate Hit.
Qed.

(* ================================================================= *)
(** ** Stopping after a tool batch *)











(* ================================================================= *)
(** ** Unresolved tools *)





(** Without hooks the same batch hands back [currentMessages], to which
    the not-found branch has added nothing: the history of the run has
    four messages, none of them for the unresolved call. *)
Remark unresolved_message_without_hooks :
  exists r i',
    performAction Examples.unresolved_without_hook 2 newInstance = (Done r, i')
    /\ iterations r = 4
    /\ toolCalls r
       = [{| tool := "echo"; input := JObj [("x", JNum 2)]; output := JObj [("x", JNum 2)] |}].
Proof. eexists; eexists. vm_compute. repeat split. Qed.

(* ================================================================= *)
(** ** Rewritten arguments *)

(** C5: when the before-hook returns rewritten arguments, the
    [tool_start] event of the call carries the arguments of the model's
    tool call, as they were before the rewriting; the tool is invoked
    with the rewritten ones, and [tool_complete] carries those. *)
Theorem tool_start_carries_the_original_arguments (w : World)
  (agentTools : list DynamicStructuredTool) (lastId : option MessageId) (k : nat)
  (toolCall : ToolCall) (b : Batch) (i : Instance) (t : DynamicStructuredTool)
  (r : HookBeforeResult) :
  streamingCallback (params w) = true ->
  find (fun t => String.eqb (name t) (call_name toolCall)) agentTools = Some t ->
  callBefore w (call_name toolCall) (call_args toolCall) (currentMessages b)
  = Returned (Some r) ->
  let after := effects (snd (runToolCall w agentTools lastId k toolCall b i)) in
  (exists more,
     after = (effects i
                ++ Emit (tool_start (call_name toolCall) (call_args toolCall) (call_id toolCall))
                :: ToolInvoke (name t) (before_toolInput r) :: more)%list)
  /\ forall toolOutput hookResult_after,
       func t (before_toolInput r) = Returned toolOutput ->
       callAfter w (call_name toolCall) (before_toolInput r) toolOutput
         (currentMessages
            (pushToolMessage
               (newMessage (ToolMessage (toolContent toolOutput) (call_id toolCall)))
               (applyBefore lastId k (Some r) b)))
       = Returned hookResult_after ->
       In (Emit (tool_complete (call_id toolCall) (before_toolInput r) (call_name toolCall)
                   toolOutput)) after.
Proof.
  intros Hstream Hfind Hbefore after. subst after. unfold runToolCall.
  rewrite Hfind, Hbefore. unfold bind, emit, perform, ret. rewrite Hstream.
  cbn [argsAfterBefore fst snd]. split.
  - destruct (func t (before_toolInput r)) as [ out | e ]; cbn.
    + destruct (callAfter w _ _ _ _) as [ ha | e ]; cbn.
      * destruct (requestsStop ha); cbn; rewrite <- ?List.app_assoc; cbn;
          eexists; reflexivity.
      * rewrite <- ?List.app_assoc. cbn. eexists; reflexivity.
    + rewrite <- ?List.app_assoc. cbn. eexists; reflexivity.
  - intros toolOutput ha Hfunc Hafter. rewrite Hfunc. cbv beta iota zeta.
    rewrite Hafter. unfold setShouldStopAfterTools.
    destruct (requestsStop ha); cbn; apply in_or_app; right; left; reflexivity.
Qed.

Lemma tool_start_carries_the_original_arguments_witness :
  exists more,
    effects (snd (runToolCall Examples.rewriting_hook [Examples.echo] (Some (Uuid 1)) 0
                    Examples.callEcho
                    {| toolMessages := []; currentMessages := Examples.echoRequested;
                       assigned_calls := [Examples.callEcho] |} newInstance))
    = Emit (tool_start "echo" (JObj [("x", JNum 2)]) "c2")
      :: ToolInvoke "echo" (JObj [("x", JNum 3)]) :: more.
Proof.
  apply (tool_start_carries_the_original_arguments Examples.rewriting_hook [Examples.echo]
           (Some (Uuid 1)) 0 Examples.callEcho
           {| toolMessages := []; currentMessages := Examples.echoRequested;
              assigned_calls := [Examples.callEcho] |} newInstance Examples.echo
           {| before_messages := None; before_toolInput := JObj [("x", JNum 3)] |});
    reflexivity.
Defined.

(* ================================================================= *)
(** ** Tool outputs through the history *)




(* ================================================================= *)
(** ** Retries of the model call *)




Lemma modelInvocations_app (es1 es2 : list Effect) :
  modelInvocations (es1 ++ es2) = modelInvocations es1 + modelInvocations es2.
Proof. unfold modelInvocations. now rewrite filter_app, length_app. Qed.













(* ================================================================= *)
(** ** Bounds of the backoff *)

Section BackoffBounds.
Open Scope Q_scope.





End BackoffBounds.

(* ================================================================= *)
(** ** What a whole run calls *)

Section Only.

Context {A B : Type}.
Variable P : Effect -> Prop.

Lemma only_ret (a : A) : only P (ret a).
Proof. intros i. apply extends_refl. Qed.

Lemma only_throw (e : Thrown) : only P (@throw A e).
Proof. intros i. apply extends_refl. Qed.

Lemma only_starve : only P (@starve A).
Proof. intros i. apply extends_refl. Qed.

Lemma only_bind (m : Async A) (k : A -> Async B) :
  only P m -> (forall a, only P (k a)) -> only P (bind m k).
Proof.
  intros Hm Hk i. unfold bind. specialize (Hm i).
  destruct (m i) as [[ a | e | ] i1]; cbn in Hm |- *; try exact Hm.
  eapply extends_trans; [ exact Hm | apply Hk ].
Qed.

Lemma only_tryCatch (m : Async A) (handler : Thrown -> Async A) :
  only P m -> (forall e, only P (handler e)) -> only P (tryCatch m handler).
Proof.
  intros Hm Hh i. unfold tryCatch. specialize (Hm i).
  destruct (m i) as [[ a | e | ] i1]; cbn in Hm |- *; try exact Hm.
  eapply extends_trans; [ exact Hm | apply Hh ].
Qed.

Lemma only_observe (m : Async A) : only P m -> only P (observe m).
Proof.
  intros Hm i. unfold observe. specialize (Hm i).
  destruct (m i) as [[ a | e | ] i1]; exact Hm.
Qed.

Lemma only_silent (m : Async A) : (forall i, effects (snd (m i)) = effects i) -> only P m.
Proof. intros H i. apply extends_same, H. Qed.

End Only.

Lemma only_perform (P : Effect -> Prop) (e : Effect) : P e -> only P (perform e).
Proof.
  intros H i. exists [e]. split; [ reflexivity | ]. constructor; [ exact H | constructor ].
Qed.

Lemma only_emit (P : Effect -> Prop) (w : World) (e : StreamingEvent) :
  P (Emit e) -> only P (emit w e).
Proof.
  intros H. unfold emit. destruct (streamingCallback (params w));
    [ now apply only_perform | apply only_ret ].
Qed.

Lemma only_mapM {A B : Type} (P : Effect -> Prop) (f : A -> Async B) (l : list A) :
  (forall a, only P (f a)) -> only P (mapM f l).
Proof.
  intros Hf. induction l as [ | a l IH ]; cbn [mapM]; [ apply only_ret | ].
  apply only_bind; [ apply Hf | intros b ].
  apply only_bind; [ apply IH | intros bs; apply only_ret ].
Qed.

Lemma only_assignId (P : Effect -> Prop) (m : BaseMessage) : only P (assignId m).
Proof.
  unfold assignId. destruct (id m); [ apply only_ret | ].
  apply only_bind; [ now apply only_silent | intros u; apply only_ret ].
Qed.

Lemma only_messagesStateReducer (P : Effect -> Prop) (left right : list BaseMessage) :
  only P (messagesStateReducer left right).
Proof.
  unfold messagesStateReducer.
  apply only_bind; [ apply only_mapM, only_assignId | intros l ].
  apply only_bind; [ apply only_mapM, only_assignId | intros r; apply only_ret ].
Qed.

Section Within.

Variable w : World.
Variable I : ModelConfig -> list string -> list BaseMessage -> Prop.
Variable T : string -> Prop.
Variable S : StreamingEvent -> Prop.
Hypothesis HS : forall event, announcesPrimary w event -> S event.

Ltac only_event := apply only_emit; apply HS; first [ exact Logic.I | split; reflexivity ].

Lemma only_runToolCall (agentTools : list DynamicStructuredTool) (lastId : option MessageId)
  (k : nat) (toolCall : ToolCall) (b : Batch) :
  (forall t, In t agentTools -> T (name t)) ->
  only (within I T S) (runToolCall w agentTools lastId k toolCall b).
Proof.
  intros HT. unfold runToolCall.
  destruct (find _ agentTools) as [ t | ] eqn:Hfind; [ | apply only_ret ].
  apply find_some in Hfind. destruct Hfind as [Hin _].
  destruct (callBefore w _ _ _) as [ hb | e ]; [ | apply only_ret ].
  apply only_bind; [ only_event | intros _ ].
  apply only_bind; [ apply only_perform; cbn; now apply HT | intros _ ].
  destruct (func t _) as [ out | e ]; [ | apply only_ret ].
  destruct (callAfter w _ _ _ _) as [ ha | e ]; [ | apply only_ret ].
  apply only_bind; [ apply only_perform; exact Logic.I | intros _ ].
  apply only_bind;
    [ destruct (requestsStop ha); [ now apply only_silent | apply only_ret ] | intros _ ].
  apply only_bind; [ only_event | intros _ ]. apply only_ret.
Qed.

Lemma only_forEachToolCall (agentTools : list DynamicStructuredTool)
  (lastId : option MessageId) (toolCalls : list ToolCall) :
  (forall t, In t agentTools -> T (name t)) ->
  forall (k : nat) (b : Batch),
  only (within I T S) (forEachToolCall w agentTools lastId k toolCalls b).
Proof.
  intros HT. induction toolCalls as [ | c rest IH ]; intros k b; cbn [forEachToolCall].
  - apply only_ret.
  - apply only_bind; [ now apply only_runToolCall | intros b'; apply IH ].
Qed.

Lemma only_executeToolsWithHooks (messages : list BaseMessage)
  (agentTools : list DynamicStructuredTool) :
  (forall t, In t agentTools -> T (name t)) ->
  only (within I T S) (executeToolsWithHooks w messages agentTools).
Proof.
  intros HT. unfold executeToolsWithHooks.
  destruct (last _ _) as [ lastMessage | ]; [ | apply only_throw ].
  apply only_bind; [ now apply only_silent | intros _ ].
  apply only_bind; [ now apply only_forEachToolCall | intros b ].
  destruct (negb _); apply only_ret.
Qed.

Lemma only_onFailedAttempt (error : Thrown) (attemptNumber retriesLeft : nat) :
  only (within I T S) (onFailedAttempt w error attemptNumber retriesLeft).
Proof.
  unfold onFailedAttempt, sleepBackoff.
  apply only_bind; [ only_event | intros _ ].
  destruct (Nat.ltb 0 retriesLeft); [ | apply only_ret ].
  apply only_bind; [ now apply only_silent | intros q; apply only_perform; exact Logic.I ].
Qed.

Lemma only_reply (reply : AIReply) :
  only (within I T S)
    (match reply_thinking reply with
     | Some thinking => if String.eqb thinking "" then ret tt else emit w (think thinking)
     | None => ret tt
     end ;;;
     emit w llm_complete ;;;
     ret reply).
Proof.
  apply only_bind.
  - destruct (reply_thinking reply) as [ t | ]; [ | apply only_ret ].
    destruct (String.eqb t ""); [ apply only_ret | only_event ].
  - intros _. apply only_bind; [ only_event | intros _; apply only_ret ].
Qed.

Lemma only_invokeWithRetry (cfg : ModelConfig) (toolNames : list string)
  (allMessages : list BaseMessage) (retriesLeft : nat) :
  I cfg toolNames allMessages ->
  forall attemptNumber,
  only (within I T S) (invokeWithRetry w retriesLeft attemptNumber cfg toolNames allMessages).
Proof.
  intros HI. induction retriesLeft as [ | r IH ]; intros a; cbn [invokeWithRetry];
    (apply only_bind; [ now apply only_silent | intros n ]);
    (apply only_bind; [ apply only_perform; exact HI | intros _ ]);
    (apply only_bind; [ only_event | intros _ ]);
    destruct (chat w n cfg toolNames allMessages) as [ reply | e ];
    try apply only_reply;
    (apply only_bind; [ apply only_onFailedAttempt | intros _ ]).
  - apply only_throw.
  - apply IH.
Qed.

Lemma only_agentNode (cfg : ModelConfig) (agentTools : list DynamicStructuredTool)
  (messages : list BaseMessage) :
  (forall ms, I cfg (map name agentTools) (systemMessageOf w :: ms)) ->
  only (within I T S) (agentNode w cfg agentTools messages).
Proof.
  intros HI. unfold agentNode. apply only_tryCatch.
  - apply only_bind; [ apply only_invokeWithRetry, HI | intros r; apply only_ret ].
  - intros e. destruct (isCandidateContentError _); [ apply only_ret | apply only_throw ].
Qed.

Lemma only_runGraph (cfg : ModelConfig) (agentTools : list DynamicStructuredTool)
  (recursionLimit : nat) :
  (forall ms, I cfg (map name agentTools) (systemMessageOf w :: ms)) ->
  (forall t, In t agentTools -> T (name t)) ->
  forall (node : Node) (messages : list BaseMessage),
  only (within I T S) (runGraph w cfg agentTools recursionLimit node messages).
Proof.
  intros HI HT. induction recursionLimit as [ | limit IH ]; intros node messages.
  - destruct node; cbn; first [ apply only_throw | apply only_ret ].
  - destruct node; cbn [runGraph].
    + apply only_bind; [ now apply only_agentNode | intros r ].
      apply only_bind; [ apply only_messagesStateReducer | intros ms ].
      apply only_bind; [ | intros next; apply IH ].
      destruct agentTools; [ apply only_ret | ].
      unfold shouldContinue. destruct (last _ _) as [ m | ]; [ | apply only_throw ].
      destruct (tool_calls_of m); apply only_ret.
    + apply only_bind; [ now apply only_executeToolsWithHooks | intros r ].
      apply only_bind; [ apply only_messagesStateReducer | intros ms ].
      apply only_bind; [ | intros next; apply IH ].
      unfold shouldContinueAfterTools.
      apply only_bind; [ now apply only_silent | intros stop ].
      destruct stop; apply only_ret.
    + apply only_ret.
Qed.

Lemma only_buildHumanMessage (message : string) (images : list ImageInput) :
  only (within I T S) (buildHumanMessage w message images).
Proof.
  unfold buildHumanMessage. destruct images as [ | image images ]; [ apply only_ret | ].
  apply only_bind; [ | intros parts; apply only_ret ].
  apply only_mapM. intros [ data mimeType description | url description ]; cbn [imageParts].
  - apply only_ret.
  - apply only_bind; [ | intros u; apply only_ret ].
    destruct (fetch w url) as [ [ contentType base64Data | status statusText ] | e ];
      first [ apply only_ret | apply only_throw ].
Qed.

Lemma only_executeAgent_catch (rerun : ModelConfig -> Async AIAgentResult)
  (cfg : ModelConfig) (e : Thrown) (its : nat) (tc : list ToolCallRecord) :
  (forall b, backupModel cfg = Some b ->
             only (within I T S) (rerun (buildModelConfig cfg (Some b)))) ->
  only (within I T S) (executeAgent_catch w rerun cfg e its tc).
Proof.
  intros Hrerun. unfold executeAgent_catch.
  destruct (backupModel cfg) as [ b | ]; [ | apply only_ret ].
  apply only_bind; [ only_event | intros _; now apply Hrerun ].
Qed.

Lemma only_executeAgent (rerun : ModelConfig -> Async AIAgentResult)
  (agentTools : list DynamicStructuredTool) (message : string) (images : list ImageInput)
  (maxIterations : nat) (cfg : ModelConfig) :
  (forall ms, I cfg (map name agentTools) (systemMessageOf w :: ms)) ->
  (forall t, In t agentTools -> T (name t)) ->
  (forall b, backupModel cfg = Some b ->
             only (within I T S) (rerun (buildModelConfig cfg (Some b)))) ->
  only (within I T S) (executeAgent w rerun agentTools message images maxIterations cfg).
Proof.
  intros HI HT Hrerun. unfold executeAgent.
  apply only_bind.
  - apply only_observe. apply only_bind; [ apply only_buildHumanMessage | intros h ].
    unfold invokeGraph.
    apply only_bind; [ apply only_messagesStateReducer | intros ms; now apply only_runGraph ].
  - intros [ messages | e ]; [ | now apply only_executeAgent_catch ].
    unfold finishRun.
    destruct (reasonIs _ "SAFETY_BLOCKED"); [ now apply only_executeAgent_catch | ].
    destruct (reasonIs _ "MAX_TOKENS"); [ now apply only_executeAgent_catch | ].
    destruct (truthy _); apply only_ret.
Qed.

(** A run of [executeWithModel], at any depth of fallback. *)
Lemma only_executeWithModel (fuel : nat) :
  forall cfg : ModelConfig,
  (forall c ms,
     c = cfg \/ (exists b, backupModel cfg = Some b /\ c = buildModelConfig cfg (Some b)) ->
     I c (map name (initializedTools w)) (systemMessageOf w :: ms)) ->
  (forall t, In t (initializedTools w) -> T (name t)) ->
  only (within I T S) (executeWithModel w fuel cfg).
Proof.
  induction fuel as [ | fuel IH ]; intros cfg HI HT; cbn [executeWithModel].
  - apply only_starve.
  - apply only_bind; [ apply only_perform; exact Logic.I | intros _ ].
    apply only_bind.
    { unfold initializeModel. destruct (params_credentials (params w)); [ | apply only_throw ].
      destruct (credentialTypeOf _); [ | apply only_throw ].
      destruct (truthy _); [ apply only_ret | apply only_throw ]. }
    intros _. unfold initializeTools.
    destruct (registerDefaults w) as [ e | ].
    { intros i. apply extends_refl. }
    intros i.
    change (extends (within I T S) i
              (snd (executeAgent w (executeWithModel w fuel) (initializedTools w)
                      (params_message (params w)) (params_images (params w))
                      (params_maxIterations (params w)) cfg i))).
    apply only_executeAgent.
    + intros ms. apply HI. now left.
    + exact HT.
    + intros b Hb. apply IH; [ | exact HT ].
      intros c ms [ -> | (b' & Hb' & _) ]; [ | discriminate Hb' ].
      apply HI. right. now exists b.
Qed.

End Within.

(** X5: a run invokes initialized tools only.  Whatever the model asks
    for and whatever tools and hooks do, every tool invocation of
    [performAction], fallback run included, is of a tool that
    [initializeTools] built: a custom tool whose schema could be built,
    or the agent tool of a registered tool bubble. *)
Theorem run_invokes_initialized_tools_only (w : World) (fuel : nat) (i : Instance) :
  extends
    (within (fun _ _ _ => True) (fun tool => In tool (map name (initializedTools w)))
       (fun _ => True))
    i (snd (performAction w fuel i)).
Proof.
  unfold performAction. apply only_tryCatch; [ | intros e; apply only_ret ].
  apply only_executeWithModel.
  - intros; exact Logic.I.
  - intros; exact Logic.I.
  - intros t Ht. now apply in_map.
Qed.

(** X6: every call of the chat model in a run of [performAction] is made
    with the primary configuration or with the one derived from its
    backup, with all initialized tools bound, and with the system prompt
    as first message, ahead of the history. *)
Theorem run_calls_the_model_with_prompt_and_tools (w : World) (fuel : nat) (i : Instance) :
  extends
    (within
       (fun cfg toolNames messages =>
          configurationOf w cfg
          /\ toolNames = map name (initializedTools w)
          /\ exists history, messages = systemMessageOf w :: history)
       (fun _ => True) (fun _ => True))
    i (snd (performAction w fuel i)).
Proof.
  unfold performAction. apply only_tryCatch; [ | intros e; apply only_ret ].
  apply only_executeWithModel.
  - intros; exact Logic.I.
  - intros c ms Hc. split; [ exact Hc | split; [ reflexivity | now exists ms ] ].
  - intros; exact Logic.I.
Qed.

(** X7: every [llm_start] event of a run carries the model name and the
    temperature of [params.model], the primary configuration, also while
    the backup model is the one being called. *)
Theorem llm_start_always_announces_the_primary_model (w : World) (fuel : nat)
  (i : Instance) :
  extends (within (fun _ _ _ => True) (fun _ => True) (announcesPrimary w))
    i (snd (performAction w fuel i)).
Proof.
  unfold performAction. apply only_tryCatch; [ | intros e; apply only_ret ].
  apply only_executeWithModel.
  - intros event H; exact H.
  - intros; exact Logic.I.
  - intros; exact Logic.I.
Qed.

(* ================================================================= *)
(** ** The tool node without hooks *)

Lemma runToolCall_without_hooks (w : World) (agentTools : list DynamicStructuredTool)
  (lastId : option MessageId) (k : nat) (toolCall : ToolCall) (b : Batch) (i : Instance) :
  beforeToolCallHook (params w) = None -> afterToolCallHook (params w) = None ->
  exists i',
    runToolCall w agentTools lastId k toolCall b i
    = (Done {| toolMessages := toolMessages b ++ [answerOf agentTools toolCall];
               currentMessages :=
                 currentMessages b
                   ++ (if resolves agentTools toolCall
                       then [answerOf agentTools toolCall] else []);
               assigned_calls := assigned_calls b |}, i').
Proof.
  intros Hbefore Hafter. unfold runToolCall, answerOf, resolves, callBefore, callAfter.
  rewrite Hbefore, Hafter.
  destruct (find _ agentTools) as [ t | ].
  - unfold bind, emit, perform, ret. cbn [argsAfterBefore applyBefore].
    destruct (streamingCallback (params w)); cbn [fst snd];
      destruct (func t (call_args toolCall)) as [ out | e ]; cbn;
      eexists; reflexivity.
  - exists i. cbn. now rewrite List.app_nil_r.
Qed.

Lemma forEachToolCall_without_hooks (w : World) (agentTools : list DynamicStructuredTool)
  (lastId : option MessageId) (toolCalls : list ToolCall) :
  beforeToolCallHook (params w) = None -> afterToolCallHook (params w) = None ->
  forall (k : nat) (b : Batch) (i : Instance),
  exists i',
    forEachToolCall w agentTools lastId k toolCalls b i
    = (Done {| toolMessages := toolMessages b ++ map (answerOf agentTools) toolCalls;
               currentMessages :=
                 currentMessages b
                   ++ map (answerOf agentTools) (filter (resolves agentTools) toolCalls);
               assigned_calls := assigned_calls b |}, i').
Proof.
  intros Hbefore Hafter. induction toolCalls as [ | c rest IH ]; intros k b i.
  - exists i. cbn. rewrite !List.app_nil_r. now destruct b.
  - cbn [forEachToolCall map filter]. unfold bind.
    destruct (runToolCall_without_hooks w agentTools lastId k c b i Hbefore Hafter) as [i1 ->].
    match goal with
    | |- context [forEachToolCall w agentTools lastId (S k) rest ?b1 i1] =>
        destruct (IH (S k) b1 i1) as [i' ->]
    end.
    exists i'. cbn [toolMessages currentMessages assigned_calls].
    destruct (resolves agentTools c); cbn [map]; rewrite <- !List.app_assoc; reflexivity.
Qed.

Lemma filter_all {A : Type} (f : A -> bool) (l : list A) :
  forallb f l = true -> filter f l = l.
Proof.
  induction l as [ | a l IH ]; [ reflexivity | ]. cbn. destruct (f a); [ | discriminate ].
  intros H. now rewrite IH.
Qed.

Lemma filter_shorter {A : Type} (f : A -> bool) (l : list A) :
  forallb f l = false -> length (filter f l) < length l.
Proof.
  induction l as [ | a l IH ]; [ discriminate | ]. cbn. destruct (f a); cbn.
  - intros H. apply IH in H. lia.
  - intros _. pose proof (filter_length_le f l). lia.
Qed.

(** X8: without hooks, and when every tool the model calls is among the
    agent's tools, the tool node hands back exactly one tool message per
    call, in the order of the calls and under the id of its call: the
    output of the tool (as it is when it is a string, else its JSON
    text), or ["Error: <message>"] when the tool threw.  The calls
    themselves are left as they were. *)
Theorem tool_node_answers_each_call_in_order (w : World) (messages : list BaseMessage)
  (lastMessage : BaseMessage) (agentTools : list DynamicStructuredTool) (i : Instance) :
  beforeToolCallHook (params w) = None -> afterToolCallHook (params w) = None ->
  last (map Some messages) None = Some lastMessage ->
  forallb (resolves agentTools) (tool_calls_of lastMessage) = true ->
  exists i',
    executeToolsWithHooks w messages agentTools i
    = (Done {| update := map (answerOf agentTools) (tool_calls_of lastMessage);
               lastMessage_tool_calls := tool_calls_of lastMessage |}, i').
Proof.
  intros Hbefore Hafter Hlast Hall. unfold executeToolsWithHooks. rewrite Hlast.
  unfold bind, setShouldStopAfterTools.
  match goal with
  | |- context [forEachToolCall w agentTools ?l ?k ?c ?b ?i0] =>
      destruct (forEachToolCall_without_hooks w agentTools l c Hbefore Hafter k b i0) as [i' ->]
  end.
  exists i'. cbn [toolMessages currentMessages assigned_calls].
  rewrite (filter_all _ _ Hall), !length_app, !length_map.
  match goal with
  | |- context [negb (Nat.eqb ?a ?b)] => destruct (Nat.eqb_spec a b) as [ Heq | Hneq ]
  end; [ reflexivity | cbn in Hneq; lia ].
Qed.

Lemma tool_node_answers_each_call_in_order_witness :
  exists i',
    executeToolsWithHooks Examples.unresolved_without_hook Examples.echoRequested
      [Examples.echo] newInstance
    = (Done {| update := [newMessage (ToolMessage (JSON.stringify (JObj [("x", JNum 2)])) "c2")];
               lastMessage_tool_calls := [Examples.callEcho] |}, i').
Proof.
  apply (tool_node_answers_each_call_in_order Examples.unresolved_without_hook
           Examples.echoRequested
           {| id := Some (Uuid 1); kind := AIMessage (Text "") [Examples.callEcho] None |}
           [Examples.echo] newInstance); reflexivity.
Defined.

(** X9: without hooks, when at least one called tool is not among the
    agent's tools, the tool node hands back the whole history followed by
    the tool messages of the calls that were resolved.  The
    ["Error: Tool <name> not found"] messages are not part of what it
    hands back, so the unresolved calls stay unanswered in the state. *)
Theorem unresolved_call_drops_the_not_found_messages (w : World)
  (messages : list BaseMessage) (lastMessage : BaseMessage)
  (agentTools : list DynamicStructuredTool) (i : Instance) :
  beforeToolCallHook (params w) = None -> afterToolCallHook (params w) = None ->
  last (map Some messages) None = Some lastMessage ->
  forallb (resolves agentTools) (tool_calls_of lastMessage) = false ->
  exists i',
    executeToolsWithHooks w messages agentTools i
    = (Done {| update :=
                 messages
                   ++ map (answerOf agentTools)
                        (filter (resolves agentTools) (tool_calls_of lastMessage));
               lastMessage_tool_calls := tool_calls_of lastMessage |}, i').
Proof.
  intros Hbefore Hafter Hlast Hsome. unfold executeToolsWithHooks. rewrite Hlast.
  unfold bind, setShouldStopAfterTools.
  match goal with
  | |- context [forEachToolCall w agentTools ?l ?k ?c ?b ?i0] =>
      destruct (forEachToolCall_without_hooks w agentTools l c Hbefore Hafter k b i0) as [i' ->]
  end.
  exists i'. cbn [toolMessages currentMessages assigned_calls].
  pose proof (filter_shorter _ _ Hsome) as Hlt.
  rewrite !length_app, !length_map.
  match goal with
  | |- context [negb (Nat.eqb ?a ?b)] => destruct (Nat.eqb_spec a b) as [ Heq | Hneq ]
  end; [ cbn in Heq; lia | reflexivity ].
Qed.

Lemma unresolved_call_drops_the_not_found_messages_witness :
  exists i',
    executeToolsWithHooks Examples.unresolved_without_hook Scenarios.twoRequested
      [Examples.echo] newInstance
    = (Done {| update :=
                 Scenarios.twoRequested
                   ++ [newMessage (ToolMessage (JSON.stringify (JObj [("x", JNum 2)])) "c2")];
               lastMessage_tool_calls := [Examples.callMissing; Examples.callEcho] |}, i').
Proof.
  apply (unresolved_call_drops_the_not_found_messages Examples.unresolved_without_hook
           Scenarios.twoRequested
           {| id := Some (Uuid 1);
              kind := AIMessage (Text "") [Examples.callMissing; Examples.callEcho] None |}
           [Examples.echo] newInstance); reflexivity.
Defined.

(* ================================================================= *)
(** ** A throwing after-hook *)

(** X10: when the after-hook of a call throws, the tool has run and its
    output message is already in the batch; the [catch] clause adds the
    message ["Error: <message>"] for the same call, so that the call is
    answered twice.  No [tool_complete] event is emitted for the call
    and the stop flag is left as it was. *)
Theorem throwing_after_hook_answers_the_call_twice (w : World)
  (agentTools : list DynamicStructuredTool) (lastId : option MessageId) (k : nat)
  (toolCall : ToolCall) (b : Batch) (i : Instance) (t : DynamicStructuredTool)
  (hookResult_before : option HookBeforeResult) (toolOutput : Json) (error : Thrown) :
  find (fun t => String.eqb (name t) (call_name toolCall)) agentTools = Some t ->
  callBefore w (call_name toolCall) (call_args toolCall) (currentMessages b)
  = Returned hookResult_before ->
  func t (argsAfterBefore hookResult_before toolCall) = Returned toolOutput ->
  let toolMessage := newMessage (ToolMessage (toolContent toolOutput) (call_id toolCall)) in
  let errorMessage :=
    newMessage (ToolMessage ("Error: " ++ messageOrUnknown error) (call_id toolCall)) in
  callAfter w (call_name toolCall) (argsAfterBefore hookResult_before toolCall) toolOutput
    (currentMessages (pushToolMessage toolMessage (applyBefore lastId k hookResult_before b)))
  = Raised error ->
  exists b' i' es,
    runToolCall w agentTools lastId k toolCall b i = (Done b', i')
    /\ toolMessages b' = (toolMessages b ++ [toolMessage; errorMessage])%list
    /\ currentMessages b'
       = (currentMessages (applyBefore lastId k hookResult_before b)
            ++ [toolMessage; errorMessage])%list
    /\ effects i' = (effects i ++ es)%list
    /\ In (ToolInvoke (name t) (argsAfterBefore hookResult_before toolCall)) es
    /\ (forall callId input tool output,
          ~ In (Emit (tool_complete callId input tool output)) es)
    /\ shouldStopAfterTools i' = shouldStopAfterTools i.
Proof.
  intros Hfind Hbefore Hfunc toolMessage errorMessage Hafter.
  unfold runToolCall. rewrite Hfind, Hbefore.
  unfold bind, emit, perform, ret. cbv beta iota zeta.
  destruct (streamingCallback (params w)); cbn [fst snd effects];
    rewrite Hfunc; cbv beta iota zeta; fold toolMessage; rewrite Hafter;
    eexists; eexists; eexists; (split; [ reflexivity | ]); cbn;
    rewrite <- ?List.app_assoc; cbn.
  - split; [ destruct hookResult_before; reflexivity | ].
    split; [ reflexivity | split; [ reflexivity | ] ].
    split; [ right; left; reflexivity | split; [ | reflexivity ] ].
    intros callId input tool output [ H | [ H | [] ] ]; discriminate H.
  - split; [ destruct hookResult_before; reflexivity | ].
    split; [ reflexivity | split; [ reflexivity | ] ].
    split; [ left; reflexivity | split; [ | reflexivity ] ].
    intros callId input tool output [ H | [] ]; discriminate H.
Qed.

Lemma throwing_after_hook_answers_the_call_twice_witness :
  exists b' i' es,
    runToolCall Scenarios.after_hook_throws [Examples.echo] (Some (Uuid 1)) 0 Examples.callEcho
      {| toolMessages := []; currentMessages := Examples.echoRequested;
         assigned_calls := [Examples.callEcho] |} newInstance = (Done b', i')
    /\ toolMessages b'
       = [newMessage (ToolMessage (toolContent (JObj [("x", JNum 2)])) "c2");
          newMessage (ToolMessage "Error: hook failed" "c2")]
    /\ currentMessages b'
       = (Examples.echoRequested
            ++ [newMessage (ToolMessage (toolContent (JObj [("x", JNum 2)])) "c2");
                newMessage (ToolMessage "Error: hook failed" "c2")])%list
    /\ effects i' = es
    /\ In (ToolInvoke "echo" (JObj [("x", JNum 2)])) es
    /\ (forall callId input tool output,
          ~ In (Emit (tool_complete callId input tool output)) es)
    /\ shouldStopAfterTools i' = false.
Proof.
  apply (throwing_after_hook_answers_the_call_twice Scenarios.after_hook_throws
           [Examples.echo] (Some (Uuid 1)) 0 Examples.callEcho
           {| toolMessages := []; currentMessages := Examples.echoRequested;
              assigned_calls := [Examples.callEcho] |} newInstance Examples.echo None
           (JObj [("x", JNum 2)]) (ErrorObj "hook failed")); reflexivity.
Defined.

(* ================================================================= *)
(** ** The accountant *)






(** X12: when the graph throws and no backup is configured,
    [executeAgent] returns ["Execution error: <message>"] with
    [iterations = 0] and an empty [toolCalls], whatever tools had run
    before the error: the tool calls are counted only once the graph has
    returned. *)
Theorem tool_calls_before_a_failure_are_not_reported (w : World)
  (rerun : ModelConfig -> Async AIAgentResult) (agentTools : list DynamicStructuredTool)
  (message : string) (images : list ImageInput) (maxIterations : nat) (cfg : ModelConfig)
  (i i1 : Instance) (e : Thrown) :
  backupModel cfg = None ->
  (humanMessage <- buildHumanMessage w message images ;;
   invokeGraph w cfg agentTools humanMessage maxIterations) i = (Throws e, i1) ->
  executeAgent w rerun agentTools message images maxIterations cfg i
  = (Done {| response := "Execution error: " ++ messageOrUnknown e;
             toolCalls := [];
             iterations := 0;
             error := messageOrUnknown e;
             success := false |}, i1).
Proof.
  intros Hnone Hrun. unfold executeAgent, bind at 1, observe. rewrite Hrun.
  unfold executeAgent_catch. rewrite Hnone. reflexivity.
Qed.

Lemma tool_calls_before_a_failure_are_not_reported_witness :
  exists i1,
    executeAgent Scenarios.fails_after_tool (fun _ => starve) [Examples.echo] "go" [] 10
      Examples.gemini newInstance
    = (Done {| response := "Execution error: 503 Service Unavailable";
               toolCalls := [];
               iterations := 0;
               error := "503 Service Unavailable";
               success := false |}, i1)
    /\ In (ToolInvoke "echo" (JObj [("x", JNum 2)])) (effects i1).
Proof.
  eexists. split.
  - apply (tool_calls_before_a_failure_are_not_reported Scenarios.fails_after_tool
             (fun _ => starve) [Examples.echo] "go" [] 10 Examples.gemini newInstance _
             (ErrorObj "503 Service Unavailable"));
      [ reflexivity | vm_compute; reflexivity ].
  - vm_compute. repeat (first [ left; reflexivity | right ]).
Defined.

(* ================================================================= *)
(** ** Credentials and initialization *)

Lemma firstSegment_providerOf (modelName : string) :
  beforeSlash modelName <> None -> firstSegment modelName = providerOf modelName.
Proof.
  unfold firstSegment, providerOf. destruct (beforeSlash modelName); [ reflexivity | congruence ].
Qed.

(** X13: for a model name with a slash, [initializeModel] on the
    primary configuration throws exactly what [chooseCredential] throws,
    throws ["No credential found for provider: <provider>"] when
    [chooseCredential] returns no key or an empty one, and succeeds
    otherwise; and the key that [chooseCredential] returns is the one
    stored under the credential type that [getCredentialType] reports. *)
Theorem initializeModel_reads_the_chosen_credential (w : World) (i : Instance) :
  let primary := params_model (params w) in
  beforeSlash (model primary) <> None ->
  initializeModel w primary i
  = match chooseCredential w with
    | Returned apiKey =>
        match truthy apiKey with
        | Some _ => (Done tt, i)
        | None =>
            (Throws (ErrorObj ("No credential found for provider: " ++ providerOf (model primary))),
             i)
        end
    | Raised error => (Throws error, i)
    end
  /\ (forall apiKey, chooseCredential w = Returned apiKey ->
      exists credentials credentialType,
        params_credentials (params w) = Some credentials
        /\ getCredentialType w = Returned credentialType
        /\ apiKey = credentials credentialType).
Proof.
  intros primary Hslash. unfold initializeModel, chooseCredential, getCredentialType,
    getCredentialTypeForModel, credentialTypeOf. fold primary.
  rewrite (firstSegment_providerOf _ Hslash).
  destruct (params_credentials (params w)) as [ credentials | ].
  2:{ split; [ reflexivity | intros k H; discriminate H ]. }
  destruct (String.eqb (providerOf (model primary)) "openai");
    [ | destruct (String.eqb (providerOf (model primary)) "google");
        [ | destruct (String.eqb (providerOf (model primary)) "anthropic");
            [ | destruct (String.eqb (providerOf (model primary)) "openrouter") ] ] ].
  1-4: split; [ destruct (truthy _); reflexivity | ];
       intros k [= <-]; eexists; eexists; repeat split.
  split; [ reflexivity | intros k H; discriminate H ].
Qed.

Lemma initializeModel_reads_the_chosen_credential_witness :
  initializeModel Examples.plain_answer Examples.gemini newInstance = (Done tt, newInstance)
  /\ chooseCredential Examples.plain_answer = Returned (Some "secret")
  /\ getCredentialType Examples.plain_answer = Returned GOOGLE_GEMINI_CRED.
Proof.
  destruct (initializeModel_reads_the_chosen_credential Examples.plain_answer newInstance)
    as [Hinit Hkey]; [ discriminate | ].
  split; [ exact Hinit | ]. split; [ reflexivity | ].
  destruct (Hkey (Some "secret") eq_refl) as (credentials & credentialType & _ & Htype & _).
  reflexivity.
Defined.

(** X14: when initializing the primary model throws (credentials
    missing or empty, provider unknown), or when registering the default
    tools fails, [performAction] returns the record
    ["Error: <message>"] with no tool calls and [iterations = 0].  Nothing
    but the primary configuration has been entered: the backup model is
    not tried, even when one is configured, and no model is called. *)
Theorem failed_initialization_ends_the_run (w : World) (fuel : nat) (i : Instance)
  (e : Thrown) :
  let primary := params_model (params w) in
  initializeModel w primary = throw e
  \/ (initializeModel w primary = ret tt /\ registerDefaults w = Some e) ->
  performAction w (S fuel) i
  = (Done {| response := "Error: " ++ messageOrUnknown e;
             toolCalls := [];
             iterations := 0;
             error := messageOrUnknown e;
             success := false |},
     snd (perform (Execute primary) i)).
Proof.
  intros primary H. unfold performAction, tryCatch. cbn [executeWithModel]. fold primary.
  unfold bind at 1. cbn [perform fst snd]. unfold bind at 1.
  destruct H as [ -> | [-> Hreg] ]; [ reflexivity | ].
  cbn [ret]. unfold bind at 1, initializeTools. rewrite Hreg. reflexivity.
Qed.

Lemma failed_initialization_ends_the_run_witness :
  performAction Scenarios.without_credentials 2 newInstance
  = (Done {| response := "Error: No GOOGLE credentials provided";
             toolCalls := [];
             iterations := 0;
             error := "No GOOGLE credentials provided";
             success := false |},
     snd (perform (Execute Examples.gemini_with_backup) newInstance)).
Proof.
  apply (failed_initialization_ends_the_run Scenarios.without_credentials 1 newInstance
           (ErrorObj "No GOOGLE credentials provided")).
  left. reflexivity.
Defined.

(** X15: the model that the validator's test parameters name for a
    credential type of a chat model belongs to the provider of that
    credential type.  A bubble with that model and with the credential
    under validation as its only credential therefore reads exactly that
    credential: [testCredential] throws
    ["No credential found for provider: <provider>"] when the credential
    is empty, and otherwise calls the model once, with the prompt
    ["Hello, how are you?"] and no tools, answering [true] unless the
    content of the reply is the empty string, and throwing what the
    model throws. *)
Theorem validator_tests_the_credential_under_validation (w : World)
  (credentialType : CredentialType) (credentialValue : string) (i : Instance) :
  model (params_model (params w)) = test_model (createTestParameters credentialType) ->
  params_credentials (params w) = Some (singleCredential credentialType credentialValue) ->
  let modelConfig := params_model (params w) in
  let prompt := [newMessage (HumanMessage (Text "Hello, how are you?"))] in
  getCredentialType w = Returned credentialType
  /\ chooseCredential w = Returned (Some credentialValue)
  /\ (credentialValue = "" ->
      testCredential w i
      = (Throws (ErrorObj ("No credential found for provider: " ++ providerOf (model modelConfig))),
         i))
  /\ (credentialValue <> "" ->
      exists i',
        effects i' = (effects i ++ [Invoke modelConfig [] prompt])%list
        /\ testCredential w i
           = (match chat w (invocations i) modelConfig [] prompt with
              | Returned response =>
                  Done (match reply_content response with Text "" => false | _ => true end)
              | Raised error => Throws error
              end, i')).
Proof.
  intros Hmodel Hcred modelConfig prompt.
  assert (credentialTypeOf (providerOf (model modelConfig)) = Some credentialType) as Hp.
  { unfold modelConfig. rewrite Hmodel. destruct credentialType; reflexivity. }
  assert (forall i0,
            initializeModel w modelConfig i0
            = match truthy (Some credentialValue) with
              | Some _ => (Done tt, i0)
              | None =>
                  (Throws (ErrorObj ("No credential found for provider: "
                                       ++ providerOf (model modelConfig))), i0)
              end) as Hinit.
  { intros i0. unfold initializeModel. rewrite Hcred, Hp. unfold singleCredential.
    replace (CredentialType_eqb credentialType credentialType) with true
      by (destruct credentialType; reflexivity).
    destruct (truthy (Some credentialValue)); reflexivity. }
  split; [ | split; [ | split ] ].
  - unfold getCredentialType. rewrite Hmodel. destruct credentialType; reflexivity.
  - unfold chooseCredential. rewrite Hcred, Hmodel. destruct credentialType; reflexivity.
  - intros ->. unfold testCredential, bind at 1. fold modelConfig. now rewrite Hinit.
  - intros Hne. unfold testCredential, bind at 1. fold modelConfig. rewrite Hinit.
    destruct credentialValue as [ | c v ]; [ congruence | ]. cbn [truthy String.eqb].
    unfold bind, nextInvocation, perform. cbn [fst snd]. fold prompt.
    eexists. split; [ | destruct (chat w (invocations i) modelConfig [] prompt) as [ r | e ];
                        [ destruct (reply_content r) as [ [ | ? ? ] | ? ] | ]; reflexivity ].
    reflexivity.
Qed.

Lemma validator_tests_the_credential_under_validation_witness :
  getCredentialType (Scenarios.validating "sk-or-1") = Returned OPENROUTER_CRED
  /\ chooseCredential (Scenarios.validating "sk-or-1") = Returned (Some "sk-or-1")
  /\ exists i', testCredential (Scenarios.validating "sk-or-1") newInstance = (Done true, i').
Proof.
  destruct (validator_tests_the_credential_under_validation (Scenarios.validating "sk-or-1")
              OPENROUTER_CRED "sk-or-1" newInstance eq_refl eq_refl)
    as (Htype & Hkey & _ & Hrun).
  split; [ exact Htype | split; [ exact Hkey | ] ].
  destruct Hrun as (i' & _ & Hrun); [ discriminate | ].
  exists i'. exact Hrun.
Defined.

(* ================================================================= *)
(** ** The tool set *)

Lemma find_app {A : Type} (f : A -> bool) (l1 l2 : list A) :
  find f (l1 ++ l2) = match find f l1 with Some a => Some a | None => find f l2 end.
Proof.
  induction l1 as [ | a l1 IH ]; [ reflexivity | ]. cbn. now destruct (f a).
Qed.

Lemma find_first {A : Type} (f : A -> bool) (l : list A) (a : A) :
  In a l -> f a = true -> exists a', find f l = Some a'.
Proof.
  intros Hin Hf. destruct (find f l) as [ a' | ] eqn:H; [ now exists a' | ].
  now rewrite (find_none f l H a Hin) in Hf.
Qed.

(** X16: custom tools come first in the tool set, and the tool node
    takes the first tool of a name.  So when a custom tool whose schema
    could be built has the name of a tool call, the call is resolved to a
    custom tool, never to a registered tool bubble of the same name. *)
Theorem custom_tool_shadows_a_registered_tool (w : World) (toolConfigs : list string)
  (customToolConfigs : list CustomTool) (customTool : CustomTool) (toolCall : ToolCall)
  (i : Instance) :
  registerDefaults w = None ->
  In customTool customToolConfigs -> schemaOk customTool = true ->
  call_name toolCall = name (custom_tool customTool) ->
  exists agentTools t,
    initializeTools w toolConfigs customToolConfigs i = (Done agentTools, i)
    /\ find (fun t => String.eqb (name t) (call_name toolCall)) agentTools = Some t
    /\ In t (map custom_tool (filter schemaOk customToolConfigs)).
Proof.
  intros Hreg Hin Hok Hname. unfold initializeTools. rewrite Hreg.
  assert (In (custom_tool customTool) (map custom_tool (filter schemaOk customToolConfigs)))
    as Hcustom.
  { apply in_map, filter_In. now split. }
  destruct (find_first (fun t => String.eqb (name t) (call_name toolCall)) _ _ Hcustom)
    as [t Ht].
  { rewrite Hname. apply String.eqb_refl. }
  eexists; exists t. split; [ reflexivity | ].
  rewrite find_app, Ht. split; [ reflexivity | ].
  apply find_some in Ht. apply Ht.
Qed.

Lemma custom_tool_shadows_a_registered_tool_witness :
  exists agentTools t,
    initializeTools Scenarios.shadowed ["echo-tool"]
      [{| custom_tool := Examples.echo; schemaOk := true |}] newInstance
    = (Done agentTools, newInstance)
    /\ find (fun t => String.eqb (name t) "echo") agentTools = Some t
    /\ In t [Examples.echo].
Proof.
  apply (custom_tool_shadows_a_registered_tool Scenarios.shadowed ["echo-tool"]
           [{| custom_tool := Examples.echo; schemaOk := true |}]
           {| custom_tool := Examples.echo; schemaOk := true |} Examples.callEcho newInstance).
  - reflexivity.
  - left. reflexivity.
  - reflexivity.
  - reflexivity.
Defined.

(* ================================================================= *)
(** ** Images that cannot be loaded *)

Lemma imageParts_outcome (w : World) (image : ImageInput) (i : Instance) :
  (exists parts, imageParts w image i = (Done parts, i) /\ ~ unloadable w image)
  \/ (exists e, imageParts w image i = (Throws e, i) /\ imageError e).
Proof.
  destruct image as [ data mimeType description | url description ]; cbn [imageParts unloadable].
  - left. eexists. split; [ reflexivity | tauto ].
  - unfold bind.
    destruct (fetch w url) as [ [ contentType base64Data | status statusText ] | e ]; cbn.
    + left. eexists. split; [ reflexivity | tauto ].
    + right. eexists. split; [ reflexivity | ]. eexists; eexists; reflexivity.
    + right. eexists. split; [ reflexivity | ]. eexists; eexists; reflexivity.
Qed.

Lemma mapM_imageParts_throws (w : World) (images : list ImageInput) (i : Instance) :
  Exists (unloadable w) images ->
  exists e, mapM (imageParts w) images i = (Throws e, i) /\ imageError e.
Proof.
  induction 1 as [ image images Hbad | image images _ IH ]; cbn [mapM]; unfold bind at 1;
    destruct (imageParts_outcome w image i) as [ (parts & -> & Hok) | (e & -> & He) ];
    try (now exists e); try contradiction.
  destruct IH as (e & Hrun & He). unfold bind at 1. rewrite Hrun. now exists e.
Qed.

Lemma executeAgent_unloadable_image (w : World) (rerun : ModelConfig -> Async AIAgentResult)
  (agentTools : list DynamicStructuredTool) (message : string) (images : list ImageInput)
  (maxIterations : nat) (cfg : ModelConfig) (i : Instance) :
  Exists (unloadable w) images ->
  exists e,
    imageError e
    /\ executeAgent w rerun agentTools message images maxIterations cfg i
       = executeAgent_catch w rerun cfg e 0 [] i.
Proof.
  intros Hbad. destruct (mapM_imageParts_throws w images i Hbad) as (e & Hrun & He).
  exists e. split; [ exact He | ].
  unfold executeAgent, bind at 1, observe, bind at 1, buildHumanMessage.
  destruct images as [ | image images ]; [ inversion Hbad | ].
  unfold bind at 1. now rewrite Hrun.
Qed.

Lemma executeWithModel_unloadable_image (w : World) (fuel : nat) (cfg : ModelConfig)
  (i : Instance) :
  Exists (unloadable w) (params_images (params w)) ->
  let i0 := snd (perform (Execute cfg) i) in
  (exists e, executeWithModel w (S fuel) cfg i = (Throws e, i0))
  \/ (exists e,
        imageError e
        /\ executeWithModel w (S fuel) cfg i
           = executeAgent_catch w (executeWithModel w fuel) cfg e 0 [] i0).
Proof.
  intros Hbad i0.
  set (r := executeWithModel w (S fuel) cfg i).
  assert (r = (initializeModel w cfg ;;;
               agentTools <- initializeTools w (params_tools (params w))
                               (params_customTools (params w)) ;;
               executeAgent w (executeWithModel w fuel) agentTools
                 (params_message (params w)) (params_images (params w))
                 (params_maxIterations (params w)) cfg) i0) as Hr by reflexivity.
  clearbody r. unfold bind at 1, initializeModel in Hr.
  destruct (params_credentials (params w)) as [ credentials | ];
    [ | left; eexists; exact Hr ].
  destruct (credentialTypeOf _); [ | left; eexists; exact Hr ].
  destruct (truthy _); [ | left; eexists; exact Hr ].
  cbn [ret] in Hr. unfold bind at 1, initializeTools in Hr.
  destruct (registerDefaults w); [ left; eexists; exact Hr | ]. cbn [ret] in Hr.
  match type of Hr with
  | context [executeAgent w ?rerun ?tools ?msg ?imgs ?lim cfg ?i1] =>
      destruct (executeAgent_unloadable_image w rerun tools msg imgs lim cfg i1 Hbad)
        as (e & He & Hrun)
  end.
  right. exists e. split; [ exact He | ]. now rewrite Hr, Hrun.
Qed.

Lemma emit_quiet (w : World) (event : StreamingEvent) (i : Instance) :
  exists i' es,
    emit w event i = (Done tt, i')
    /\ effects i' = (effects i ++ es)%list /\ modelInvocations es = 0.
Proof.
  unfold emit, perform, ret. destruct (streamingCallback (params w)).
  - eexists; exists [Emit event]. repeat split.
  - exists i, []. rewrite List.app_nil_r. repeat split.
Qed.

(** X17: when one of the images of the request is given by a URL whose
    fetch throws or is not [ok], the run fails without a single call of
    a model, be a backup configured or not: [performAction] returns
    [success = false] with [iterations = 0] and no tool calls. *)
Theorem unloadable_image_fails_the_run_before_any_model_call (w : World) (fuel : nat)
  (i : Instance) :
  Exists (unloadable w) (params_images (params w)) ->
  2 <= fuel ->
  exists r i',
    performAction w fuel i = (Done r, i')
    /\ success r = false
    /\ iterations r = 0 /\ toolCalls r = []
    /\ modelInvocations (effects i') = modelInvocations (effects i).
Proof.
  intros Hbad Hfuel. destruct fuel as [ | [ | fuel ] ]; try lia.
  set (primary := params_model (params w)).
  unfold performAction, tryCatch. fold primary.
  destruct (executeWithModel_unloadable_image w (S fuel) primary i Hbad)
    as [ (e & ->) | (e & _ & ->) ].
  { eexists; eexists. split; [ reflexivity | ]. cbn [success iterations toolCalls].
    repeat split. cbn [perform snd effects]. rewrite modelInvocations_app. cbn. lia. }
  unfold executeAgent_catch. destruct (backupModel primary) as [ b | ].
  2:{ eexists; eexists. split; [ reflexivity | ]. cbn [success iterations toolCalls].
      repeat split. cbn [perform snd effects]. rewrite modelInvocations_app. cbn. lia. }
  unfold bind at 1.
  match goal with
  | |- context [emit w ?ev ?i0] =>
      destruct (emit_quiet w ev i0) as (i1 & es & -> & Heff1 & Hes)
  end.
  cbn [perform snd effects] in Heff1.
  destruct (executeWithModel_unloadable_image w fuel (buildModelConfig primary (Some b)) i1
              Hbad) as [ (e' & ->) | (e' & _ & ->) ].
  - eexists; eexists. split; [ reflexivity | ]. cbn [success iterations toolCalls].
    repeat split. cbn [perform snd effects].
    rewrite Heff1, !modelInvocations_app, Hes. cbn. lia.
  - eexists; eexists. split; [ reflexivity | ]. cbn [success iterations toolCalls].
    repeat split. cbn [perform snd effects].
    rewrite Heff1, !modelInvocations_app, Hes. cbn. lia.
Qed.

Lemma unloadable_image_fails_the_run_before_any_model_call_witness :
  exists r i',
    performAction Scenarios.broken_image 2 newInstance = (Done r, i')
    /\ success r = false
    /\ iterations r = 0 /\ toolCalls r = []
    /\ modelInvocations (effects i') = 0.
Proof.
  apply (unloadable_image_fails_the_run_before_any_model_call Scenarios.broken_image 2
           newInstance).
  - right. left. exact Logic.I.
  - lia.
Defined.

(* ================================================================= *)
(** ** Hooks that hand back what they were given *)

Lemma setArgsAt_same (calls : list ToolCall) :
  forall (k : nat) (c : ToolCall),
  nth_error calls k = Some c -> setArgsAt k (call_args c) calls = calls.
Proof.
  induction calls as [ | x calls IH ]; intros [ | k ] c H; cbn in H |- *; try discriminate H.
  - injection H as ->. now destruct c.
  - now rewrite IH.
Qed.

Lemma length_aliased (lastId : option MessageId) (calls : list ToolCall)
  (messages : list BaseMessage) :
  length (aliased lastId calls messages) = length messages.
Proof. unfold aliased. apply length_map. Qed.

Lemma runToolCall_handing_back (w : World) (agentTools : list DynamicStructuredTool)
  (lastId : option MessageId) (k : nat) (toolCall : ToolCall) (b : Batch) (i : Instance)
  (before : ToolHookBefore) (after : ToolHookAfter) :
  beforeToolCallHook (params w) = Some before -> handsBack before ->
  afterToolCallHook (params w) = Some after -> handsBackAfter after ->
  nth_error (assigned_calls b) k = Some toolCall ->
  exists b' i',
    runToolCall w agentTools lastId k toolCall b i = (Done b', i')
    /\ toolMessages b' = (toolMessages b ++ [answerOf agentTools toolCall])%list
    /\ length (currentMessages b')
       = length (currentMessages b) + (if resolves agentTools toolCall then 1 else 0)
    /\ assigned_calls b' = assigned_calls b.
Proof.
  intros Hbefore Hb Hafter Ha Hnth.
  unfold runToolCall, answerOf, resolves, callBefore, callAfter. rewrite Hbefore, Hafter, Hb.
  destruct (find _ agentTools) as [ t | ].
  2:{ eexists; eexists. split; [ reflexivity | ]. cbn. repeat split. lia. }
  cbn [argsAfterBefore applyBefore before_toolInput before_messages nullish].
  rewrite (setArgsAt_same _ _ _ Hnth).
  unfold bind at 1.
  destruct (emit w (tool_start (call_name toolCall) (call_args toolCall) (call_id toolCall)) i)
    as [[ [] | e | ] i1] eqn:He;
    try (unfold emit, perform, ret in He; destruct (streamingCallback (params w));
         discriminate He).
  unfold bind at 1. cbn [perform].
  destruct (func t (call_args toolCall)) as [ out | e ].
  2:{ eexists; eexists. split; [ reflexivity | ]. cbn -[aliased].
      rewrite length_app, length_aliased. cbn. repeat split. }
  cbv beta iota zeta.
  match goal with
  | |- context [after ?n ?inp ?o ?ms] => destruct (Ha n inp o ms) as [stop ->]
  end.
  unfold bind, perform, emit, ret, setShouldStopAfterTools.
  destruct (requestsStop _); destruct (streamingCallback (params w)); cbn -[aliased];
    eexists; eexists; (split; [ reflexivity | ]); cbn -[aliased];
    rewrite length_aliased, length_app, length_aliased; cbn; repeat split.
Qed.

Lemma forEachToolCall_handing_back (w : World) (agentTools : list DynamicStructuredTool)
  (lastId : option MessageId) (before : ToolHookBefore) (after : ToolHookAfter)
  (toolCalls : list ToolCall) :
  beforeToolCallHook (params w) = Some before -> handsBack before ->
  afterToolCallHook (params w) = Some after -> handsBackAfter after ->
  forall (k : nat) (b : Batch) (i : Instance),
  (forall j c, nth_error toolCalls j = Some c -> nth_error (assigned_calls b) (k + j) = Some c) ->
  exists b' i',
    forEachToolCall w agentTools lastId k toolCalls b i = (Done b', i')
    /\ toolMessages b' = (toolMessages b ++ map (answerOf agentTools) toolCalls)%list
    /\ length (currentMessages b')
       = length (currentMessages b) + length (filter (resolves agentTools) toolCalls)
    /\ assigned_calls b' = assigned_calls b.
Proof.
  intros Hbefore Hb Hafter Ha. induction toolCalls as [ | c rest IH ]; intros k b i Hnth.
  - exists b, i. cbn. rewrite List.app_nil_r. repeat split. lia.
  - cbn [forEachToolCall map filter]. unfold bind.
    destruct (runToolCall_handing_back w agentTools lastId k c b i before after
                Hbefore Hb Hafter Ha) as (b1 & i1 & -> & Htm & Hlen & Hcalls).
    { specialize (Hnth 0 c eq_refl). now rewrite Nat.add_0_r in Hnth. }
    destruct (IH (S k) b1 i1) as (b' & i' & -> & Htm' & Hlen' & Hcalls').
    { intros j c' Hj. rewrite Hcalls. specialize (Hnth (S j) c' Hj).
      now rewrite Nat.add_succ_r in Hnth. }
    exists b', i'. split; [ reflexivity | ].
    rewrite Htm', Htm, Hlen', Hlen, Hcalls', Hcalls, <- List.app_assoc.
    repeat split. destruct (resolves agentTools c); cbn; lia.
Qed.

(** X21: hooks that hand back the messages (and, for the before-hook,
    the input) they were given, as the before-hooks of Pearl and of the
    workflow generator do, leave the outcome of the tool node as it is
    without hooks: when every called tool is among the agent's tools, the node
    hands back exactly one tool message per call, in call order, and the
    calls keep their arguments. *)
Theorem hooks_that_hand_back_leave_the_answers_alone (w : World)
  (messages : list BaseMessage) (lastMessage : BaseMessage)
  (agentTools : list DynamicStructuredTool) (i : Instance)
  (before : ToolHookBefore) (after : ToolHookAfter) :
  beforeToolCallHook (params w) = Some before -> handsBack before ->
  afterToolCallHook (params w) = Some after -> handsBackAfter after ->
  last (map Some messages) None = Some lastMessage ->
  forallb (resolves agentTools) (tool_calls_of lastMessage) = true ->
  exists i',
    executeToolsWithHooks w messages agentTools i
    = (Done {| update := map (answerOf agentTools) (tool_calls_of lastMessage);
               lastMessage_tool_calls := tool_calls_of lastMessage |}, i').
Proof.
  intros Hbefore Hb Hafter Ha Hlast Hall. unfold executeToolsWithHooks. rewrite Hlast.
  unfold bind, setShouldStopAfterTools.
  match goal with
  | |- context [forEachToolCall w agentTools ?l ?k ?c ?b0 ?i0] =>
      destruct (forEachToolCall_handing_back w agentTools l before after c
                  Hbefore Hb Hafter Ha k b0 i0) as (b' & i' & -> & Htm & Hlen & Hcalls)
  end.
  { intros j c Hj. exact Hj. }
  exists i'. cbn [toolMessages currentMessages assigned_calls] in Htm, Hlen, Hcalls.
  rewrite Htm, Hlen, Hcalls, (filter_all _ _ Hall), !length_app, !length_map.
  match goal with
  | |- context [negb (Nat.eqb ?a ?b)] => destruct (Nat.eqb_spec a b) as [ Heq | Hneq ]
  end; [ reflexivity | cbn in Hneq; lia ].
Qed.

Lemma hooks_that_hand_back_leave_the_answers_alone_witness :
  exists i',
    executeToolsWithHooks Scenarios.handing_back Examples.echoRequested [Examples.echo]
      newInstance
    = (Done {| update := [newMessage (ToolMessage (JSON.stringify (JObj [("x", JNum 2)])) "c2")];
               lastMessage_tool_calls := [Examples.callEcho] |}, i').
Proof.
  apply (hooks_that_hand_back_leave_the_answers_alone Scenarios.handing_back
           Examples.echoRequested
           {| id := Some (Uuid 1); kind := AIMessage (Text "") [Examples.callEcho] None |}
           [Examples.echo] newInstance Scenarios.handBack Scenarios.handBackAndStop).
  - reflexivity.
  - intros toolName toolInput messages. reflexivity.
  - reflexivity.
  - intros toolName toolInput toolOutput messages. eexists. reflexivity.
  - reflexivity.
  - reflexivity.
Defined.

(* ================================================================= *)
(** ** A backup model without a credential *)

(** X22: when the run of the primary model throws in the graph and the
    configuration derived from the backup cannot be initialized (no
    credential for its provider), the error of that initialization leaves
    [executeAgent] and is what [performAction] reports:
    ["Error: <message>"], with [iterations = 0] and no tool calls.  The
    error of the primary model is not in the result, and the backup
    model is not called. *)
Theorem backup_without_credential_hides_the_primary_error (w : World) (fuel : nat)
  (i i1 : Instance) (b : BackupModelConfig) (e e' : Thrown) :
  let primary := params_model (params w) in
  let derived := buildModelConfig primary (Some b) in
  backupModel primary = Some b ->
  initializeModel w primary = ret tt ->
  registerDefaults w = None ->
  initializeModel w derived = throw e' ->
  (humanMessage <- buildHumanMessage w (params_message (params w)) (params_images (params w)) ;;
   invokeGraph w primary (initializedTools w) humanMessage (params_maxIterations (params w)))
    (snd (perform (Execute primary) i)) = (Throws e, i1) ->
  exists i',
    performAction w (S (S fuel)) i
    = (Done {| response := "Error: " ++ messageOrUnknown e';
               toolCalls := [];
               iterations := 0;
               error := messageOrUnknown e';
               success := false |}, i')
    /\ exists es, effects i' = (effects i1 ++ es ++ [Execute derived])%list
                  /\ modelInvocations es = 0.
Proof.
  intros primary derived Hb Hinit Hreg Hinit' Hgraph.
  unfold performAction, tryCatch. fold primary.
  set (r := executeWithModel w (S (S fuel)) primary i).
  assert (r = (initializeModel w primary ;;;
               agentTools <- initializeTools w (params_tools (params w))
                               (params_customTools (params w)) ;;
               executeAgent w (executeWithModel w (S fuel)) agentTools
                 (params_message (params w)) (params_images (params w))
                 (params_maxIterations (params w)) primary)
                (snd (perform (Execute primary) i))) as Hr by reflexivity.
  clearbody r. rewrite Hinit in Hr. unfold initializeTools in Hr. rewrite Hreg in Hr.
  unfold bind at 1 2 in Hr. cbn [ret] in Hr.
  unfold executeAgent, bind at 1, observe in Hr. fold (initializedTools w) in Hr.
  rewrite Hgraph in Hr. unfold executeAgent_catch in Hr. rewrite Hb in Hr.
  unfold bind at 1 in Hr.
  match type of Hr with
  | context [emit w ?ev i1] =>
      destruct (emit_quiet w ev i1) as (i2 & es & Hemit & Heff & Hes)
  end.
  rewrite Hemit in Hr. cbn [executeWithModel] in Hr. fold primary derived in Hr.
  unfold bind at 1 in Hr. cbn [perform] in Hr. rewrite Hinit' in Hr.
  unfold bind at 1, throw in Hr. rewrite Hr.
  eexists. split; [ reflexivity | ]. exists es. cbn [effects]. split; [ | exact Hes ].
  now rewrite Heff, List.app_assoc.
Qed.

Lemma backup_without_credential_hides_the_primary_error_witness :
  exists i',
    performAction Scenarios.boba_defaults 2 newInstance
    = (Done {| response := "Error: No credential found for provider: anthropic";
               toolCalls := [];
               iterations := 0;
               error := "No credential found for provider: anthropic";
               success := false |}, i').
Proof.
  destruct (backup_without_credential_hides_the_primary_error Scenarios.boba_defaults 0
              newInstance
              (snd ((humanMessage <-
                       buildHumanMessage Scenarios.boba_defaults
                         (params_message (params Scenarios.boba_defaults))
                         (params_images (params Scenarios.boba_defaults)) ;;
                     invokeGraph Scenarios.boba_defaults
                       (params_model (params Scenarios.boba_defaults))
                       (initializedTools Scenarios.boba_defaults) humanMessage
                       (params_maxIterations (params Scenarios.boba_defaults)))
                      (snd (perform
                              (Execute (params_model (params Scenarios.boba_defaults)))
                              newInstance))))
              {| backup_model := "anthropic/claude-sonnet-4-5";
                 backup_temperature := Some (3 # 10)%Q;
                 backup_maxTokens := None;
                 backup_maxRetries := None |}
              (ErrorObj "503 Service Unavailable")
              (ErrorObj "No credential found for provider: anthropic")
              eq_refl eq_refl eq_refl eq_refl)
    as (i' & Hrun & _).
  - vm_compute. reflexivity.
  - exists i'. exact Hrun.
Defined.

(* ================================================================= *)
(** ** Pearl *)

Lemma attemptsFrom_made (pw : PearlWorld) (maxRetries : option nat) (remaining : nat) :
  forall (attempt : nat) (lastError : option string) (made : list nat),
  exists k,
    snd (attemptsFrom pw maxRetries remaining attempt lastError made)
    = (made ++ seq attempt k)%list
    /\ k <= remaining /\ (1 <= remaining -> 1 <= k).
Proof.
  induction remaining as [ | r IH ]; intros attempt lastError made; cbn [attemptsFrom].
  - exists 0. cbn. rewrite List.app_nil_r. repeat split; lia.
  - destruct (attemptOnce pw maxRetries attempt lastError) as [ response | lastError' ].
    + exists 1. cbn. repeat split; lia.
    + destruct (IH (S attempt) lastError' (made ++ [attempt])%list) as (k & Hk & Hle & _).
      exists (S k). rewrite Hk, <- List.app_assoc. cbn. repeat split; lia.
Qed.

(** X18: [runPearl] runs the agent for the attempts 1, 2, ..., [k] and
    no others, with [k] at most [MAX_RETRIES], which is [maxRetries], or
    3 when [maxRetries] is 0 or not given.  It does not run the agent at
    all when the key that the environment asks for is missing, and runs
    it at least once otherwise. *)
Theorem runPearl_runs_the_agent_at_most_MAX_RETRIES_times (pw : PearlWorld)
  (maxRetries : option nat) :
  exists k,
    snd (runPearl pw maxRetries) = seq 1 k
    /\ k <= MAX_RETRIES maxRetries
    /\ (missingKey pw <> None -> k = 0)
    /\ (missingKey pw = None -> 1 <= k)
    /\ (maxRetries = None \/ maxRetries = Some 0 -> MAX_RETRIES maxRetries = 3).
Proof.
  unfold runPearl. destruct (missingKey pw) as [ response | ].
  - exists 0. repeat split; try lia; try congruence.
    intros [ -> | -> ]; reflexivity.
  - destruct (attemptsFrom_made pw maxRetries (MAX_RETRIES maxRetries) 1 None [])
      as (k & Hk & Hle & Hone).
    exists k. repeat split; try assumption; try congruence.
    + intros _. apply Hone. unfold MAX_RETRIES. destruct maxRetries as [ [ | n ] | ]; lia.
    + intros [ -> | -> ]; reflexivity.
Qed.

Lemma classify_code (pw : PearlWorld) (maxRetries : option nat) (attempt : nat)
  (lastError : option string) (run : AgentRun) (response : PearlResponse) :
  classify pw maxRetries attempt lastError run = Return response ->
  pearl_type response = "code" ->
  exists finalCode,
    editedCode run finalCode
    /\ pearl_snippet response = Some finalCode /\ pearl_success response = true.
Proof.
  unfold classify. intros H Htype. cbv zeta in H.
  destruct (match truthy (result_response run) with Some _ => _ | None => _ end);
    [ injection H as <-; discriminate Htype | ].
  destruct (parseAgentOutput pw _) as [ out | e ].
  2:{ destruct (Nat.ltb attempt _); [ discriminate H | injection H as <-; discriminate Htype ]. }
  destruct (_ || _)%bool.
  { destruct (Nat.ltb attempt _); [ discriminate H | injection H as <-; discriminate Htype ]. }
  destruct (String.eqb (output_type out) "code"); cbv beta iota in H.
  - destruct (applyModelInstructions run) as [ | instruction rest ] eqn:Hins;
      [ discriminate H | ].
    destruct (currentCode run) as [ code | ] eqn:Hcode; cbn [truthy] in H; [ | discriminate H ].
    destruct (String.eqb code "") eqn:Hempty; [ discriminate H | ].
    destruct (blank code) eqn:Hblank; [ discriminate H | ].
    injection H as <-. exists code. unfold editedCode. rewrite Hins, Hcode.
    repeat split; try assumption. discriminate.
  - destruct (String.eqb (output_type out) "question"); cbv beta iota in H;
      [ injection H as <-; discriminate Htype | ].
    destruct (_ || _)%bool; cbv beta iota in H; [ | injection H as <-; discriminate Htype ].
    destruct (blank _); [ discriminate H | injection H as <-; discriminate Htype ].
Qed.

Lemma attemptsFrom_code (pw : PearlWorld) (maxRetries : option nat) (remaining : nat) :
  forall (attempt : nat) (lastError : option string) (made : list nat),
  pearl_type (fst (attemptsFrom pw maxRetries remaining attempt lastError made)) = "code" ->
  exists attempt' run finalCode,
    last (snd (attemptsFrom pw maxRetries remaining attempt lastError made)) 0 = attempt'
    /\ runAgent pw attempt' = Returned run
    /\ editedCode run finalCode
    /\ pearl_snippet (fst (attemptsFrom pw maxRetries remaining attempt lastError made))
       = Some finalCode
    /\ pearl_success (fst (attemptsFrom pw maxRetries remaining attempt lastError made)) = true.
Proof.
  induction remaining as [ | r IH ]; intros attempt lastError made; cbn [attemptsFrom].
  - intros H. discriminate H.
  - destruct (attemptOnce pw maxRetries attempt lastError) as [ response | lastError' ] eqn:Hstep;
      [ | apply IH ].
    cbn [fst snd]. intros Htype. unfold attemptOnce in Hstep.
    destruct (runAgent pw attempt) as [ run | e ] eqn:Hrun.
    + destruct (classify_code pw maxRetries attempt lastError run response Hstep Htype)
        as (finalCode & Hedit & Hsnippet & Hsuccess).
      exists attempt, run, finalCode. rewrite last_last.
      split; [ reflexivity | split; [ exact Hrun | ] ].
      split; [ exact Hedit | split; assumption ].
    + destruct (Nat.ltb attempt _); [ discriminate Hstep | ].
      injection Hstep as <-. discriminate Htype.
Qed.

(** X19: a response of type [code] is a success and comes from the last
    attempt made: in that attempt the agent returned, [editWorkflow] was
    called at least once ([applyModelInstructions] is not empty), and
    the current code is not blank; the snippet of the response is that
    code. *)
Theorem code_is_returned_only_after_an_edit (pw : PearlWorld) (maxRetries : option nat) :
  pearl_type (fst (runPearl pw maxRetries)) = "code" ->
  exists attempt run finalCode,
    last (snd (runPearl pw maxRetries)) 0 = attempt
    /\ runAgent pw attempt = Returned run
    /\ editedCode run finalCode
    /\ pearl_snippet (fst (runPearl pw maxRetries)) = Some finalCode
    /\ pearl_success (fst (runPearl pw maxRetries)) = true.
Proof.
  unfold runPearl, missingKey.
  destruct (match LLM_PROVIDER (env pw) with Some _ => _ | None => _ end).
  - destruct (truthy _); [ apply attemptsFrom_code | intros H; discriminate H ].
  - destruct (truthy _); [ apply attemptsFrom_code | intros H; discriminate H ].
Qed.

Lemma code_is_returned_only_after_an_edit_witness :
  exists attempt run finalCode,
    last (snd (runPearl Scenarios.pearl_edits None)) 0 = attempt
    /\ runAgent Scenarios.pearl_edits attempt = Returned run
    /\ editedCode run finalCode
    /\ pearl_snippet (fst (runPearl Scenarios.pearl_edits None)) = Some finalCode
    /\ pearl_success (fst (runPearl Scenarios.pearl_edits None)) = true.
Proof.
  apply (code_is_returned_only_after_an_edit Scenarios.pearl_edits None). reflexivity.
Defined.

Lemma attemptsFrom_S (pw : PearlWorld) (maxRetries : option nat) (remaining attempt : nat)
  (lastError : option string) (made : list nat) :
  attemptsFrom pw maxRetries (S remaining) attempt lastError made
  = match attemptOnce pw maxRetries attempt lastError with
    | Return response => (response, (made ++ [attempt])%list)
    | Continue lastError' =>
        attemptsFrom pw maxRetries remaining (S attempt) lastError' (made ++ [attempt])%list
    end.
Proof. reflexivity. Qed.

Lemma attemptsFrom_throwing (pw : PearlWorld) (maxRetries : option nat)
  (error : nat -> Thrown) (remaining : nat) :
  forall (attempt : nat) (lastError : option string) (made : list nat),
  attempt + remaining = MAX_RETRIES maxRetries ->
  (forall k, attempt <= k <= MAX_RETRIES maxRetries -> runAgent pw k = Raised (error k)) ->
  attemptsFrom pw maxRetries (S remaining) attempt lastError made
  = (plainResponse "reject" "An error occurred while processing your request" false
       (Some (messageOrUnknown (error (MAX_RETRIES maxRetries)))),
     (made ++ seq attempt (S remaining))%list).
Proof.
  induction remaining as [ | r IH ]; intros attempt lastError made Hsum Hthrow;
    rewrite attemptsFrom_S; unfold attemptOnce; rewrite Hthrow by lia.
  - replace (Nat.ltb attempt (MAX_RETRIES maxRetries)) with false
      by (symmetry; apply Nat.ltb_ge; lia).
    replace (MAX_RETRIES maxRetries) with attempt by lia. reflexivity.
  - replace (Nat.ltb attempt (MAX_RETRIES maxRetries)) with true
      by (symmetry; apply Nat.ltb_lt; lia).
    rewrite IH; [ | lia | intros k Hk; apply Hthrow; lia ].
    now rewrite <- List.app_assoc.
Qed.

(** X20: when the key is there and every attempt throws, [runPearl]
    makes all [MAX_RETRIES] attempts and then rejects with
    ["An error occurred while processing your request"]; the [error] of
    the response is the message of what the last attempt threw. *)
Theorem runPearl_when_every_attempt_throws (pw : PearlWorld) (maxRetries : option nat)
  (error : nat -> Thrown) :
  missingKey pw = None ->
  (forall attempt, 1 <= attempt <= MAX_RETRIES maxRetries ->
     runAgent pw attempt = Raised (error attempt)) ->
  runPearl pw maxRetries
  = (plainResponse "reject" "An error occurred while processing your request" false
       (Some (messageOrUnknown (error (MAX_RETRIES maxRetries)))),
     seq 1 (MAX_RETRIES maxRetries)).
Proof.
  intros Hkey Hthrow. unfold runPearl. rewrite Hkey.
  assert (exists r, MAX_RETRIES maxRetries = S r) as [r Hr].
  { unfold MAX_RETRIES. destruct maxRetries as [ [ | n ] | ]; eexists; reflexivity. }
  rewrite Hr at 1 3.
  rewrite (attemptsFrom_throwing pw maxRetries error r 1 None []); [ reflexivity | lia | ].
  intros k Hk. now apply Hthrow.
Qed.

Lemma runPearl_when_every_attempt_throws_witness :
  runPearl Scenarios.pearl_down (Some 0)
  = (plainResponse "reject" "An error occurred while processing your request" false
       (Some "ECONNRESET"),
     [1; 2; 3]).
Proof.
  apply (runPearl_when_every_attempt_throws Scenarios.pearl_down (Some 0)
           (fun _ => ErrorObj "ECONNRESET")).
  - reflexivity.
  - intros attempt _. reflexivity.
Defined.
